(** * Milestone progression engine of the candidate progress widget

    Shallow embedding of the [UserProgress] component: the [useMemo] body
    that derives the next mentor call from a [UserStatus] snapshot and the
    scheduled call numbers, and the [handleBookCall] action.

    JavaScript values that the code tests for truthiness are kept as
    [JsValue]; [number]s are integers ([Z]); the percentage is an IEEE-754
    double ([PrimFloat.float]), computed with the same two operations as the
    source. *)

From Stdlib Require Import ZArith List String Ascii Bool Lia Permutation PrimFloat Uint63.
Import ListNotations.

Local Open Scope string_scope.
Local Open Scope Z_scope.

(** ** JavaScript values and truthiness *)

Inductive JsValue : Type :=
| JsUndefined
| JsNull
| JsBool (b : bool)
| JsString (s : string).

(** [Boolean(v)]: the empty string, [null], [undefined] and [false] are falsy. *)
Definition truthy (v : JsValue) : bool :=
  match v with
  | JsUndefined => false
  | JsNull => false
  | JsBool b => b
  | JsString s => negb (String.eqb s EmptyString)
  end.

(** A [string | null] field as a JavaScript value. *)
Definition nullable (o : option string) : JsValue :=
  match o with
  | Some s => JsString s
  | None => JsNull
  end.

(** What a function body does: it returns, or a [TypeError] escapes. *)
Inductive Outcome (A : Type) : Type :=
| Return (a : A)
| Throw (e : string).
Arguments Return {A} a.
Arguments Throw {A} e.

(** ** Data model *)

Inductive Icon : Type :=
| Rocket | FileText | Award | Zap | BookOpen | Target.

Record UserStatus : Type := mkUserStatus {
  id : string;
  orientation : bool;
  resumeRebuilding : bool;
  eligibleForFirstMentorCall : bool;
  firstMentorCallCompletedAt : option string;
  resumeConfirmed : bool;
  portfolioBuildingAndConfirmed : bool;
  eligibleForSecondMentorCall : bool;
  secondMentorCallCompletedAt : option string;
  techDistributionAndExtension : bool;
  eligibleForThirdMentorCall : bool;
  thirdMentorCallCompletedAt : option string;
  cheatSheetBuiltOut : bool;
  hasAppliedEnoughJobs : bool;
  eligibleForFourthMentorCall : bool;
  fourthMentorCallCompletedAt : option string;
  finalReview : bool;
  eligibleForFifthMentorCall : bool;
  fifthMentorCallCompletedAt : option string
}.

(** [status[key]]: property access by name; an unknown name is [undefined]. *)
Definition status_get (status : UserStatus) (k : string) : JsValue :=
  if String.eqb k "id" then JsString (id status)
  else if String.eqb k "orientation" then JsBool (orientation status)
  else if String.eqb k "resumeRebuilding" then JsBool (resumeRebuilding status)
  else if String.eqb k "eligibleForFirstMentorCall" then JsBool (eligibleForFirstMentorCall status)
  else if String.eqb k "firstMentorCallCompletedAt" then nullable (firstMentorCallCompletedAt status)
  else if String.eqb k "resumeConfirmed" then JsBool (resumeConfirmed status)
  else if String.eqb k "portfolioBuildingAndConfirmed" then JsBool (portfolioBuildingAndConfirmed status)
  else if String.eqb k "eligibleForSecondMentorCall" then JsBool (eligibleForSecondMentorCall status)
  else if String.eqb k "secondMentorCallCompletedAt" then nullable (secondMentorCallCompletedAt status)
  else if String.eqb k "techDistributionAndExtension" then JsBool (techDistributionAndExtension status)
  else if String.eqb k "eligibleForThirdMentorCall" then JsBool (eligibleForThirdMentorCall status)
  else if String.eqb k "thirdMentorCallCompletedAt" then nullable (thirdMentorCallCompletedAt status)
  else if String.eqb k "cheatSheetBuiltOut" then JsBool (cheatSheetBuiltOut status)
  else if String.eqb k "hasAppliedEnoughJobs" then JsBool (hasAppliedEnoughJobs status)
  else if String.eqb k "eligibleForFourthMentorCall" then JsBool (eligibleForFourthMentorCall status)
  else if String.eqb k "fourthMentorCallCompletedAt" then nullable (fourthMentorCallCompletedAt status)
  else if String.eqb k "finalReview" then JsBool (finalReview status)
  else if String.eqb k "eligibleForFifthMentorCall" then JsBool (eligibleForFifthMentorCall status)
  else if String.eqb k "fifthMentorCallCompletedAt" then nullable (fifthMentorCallCompletedAt status)
  else JsUndefined.

(** A well-formed snapshot: a completion timestamp, when present, is not the
    empty string (so "set" and JavaScript truthiness agree). *)
Definition timestamp_ok (o : option string) : bool :=
  match o with
  | Some s => negb (String.eqb s EmptyString)
  | None => true
  end.

Definition wf_status (status : UserStatus) : bool :=
  timestamp_ok (firstMentorCallCompletedAt status)
  && timestamp_ok (secondMentorCallCompletedAt status)
  && timestamp_ok (thirdMentorCallCompletedAt status)
  && timestamp_ok (fourthMentorCallCompletedAt status)
  && timestamp_ok (fifthMentorCallCompletedAt status).

(** An entry of [MILESTONES] / of a call's [required] array. *)
Record Milestone : Type := mkMilestone {
  key : string;
  label : string;
  icon : Icon
}.

Definition MILESTONES : list Milestone :=
  [ mkMilestone "orientation" "Orientation Complete" Rocket;
    mkMilestone "resumeRebuilding" "Resume Rebuilt" FileText;
    mkMilestone "resumeConfirmed" "Resume Confirmed" Award;
    mkMilestone "portfolioBuildingAndConfirmed" "Portfolio Ready" Award;
    mkMilestone "techDistributionAndExtension" "Tech Stack Defined" Zap;
    mkMilestone "cheatSheetBuiltOut" "Cheat Sheet Created" BookOpen;
    mkMilestone "hasAppliedEnoughJobs" "Jobs Applied" Target ].

(** An element of [currentMilestones]. *)
Record MilestoneView : Type := mkMilestoneView {
  mv_id : string;
  mv_label : string;
  mv_icon : Icon;
  mv_completed : bool
}.

(** An element of the [calls] array. *)
Record Call : Type := mkCall {
  number : Z;
  callLabel : string;
  eligible : bool;
  completed : option string;
  required : list Milestone;
  getMessage : list MilestoneView -> string
}.

(** [nextCall]: a call object, possibly spread with the optional fields
    [requiredMilestones] and [dynamicMessage] (absent = [None]). *)
Record NextCall : Type := mkNextCall {
  nc_number : Z;
  nc_label : string;
  nc_eligible : bool;
  nc_completed : option string;
  nc_required : list Milestone;
  nc_getMessage : list MilestoneView -> string;
  requiredMilestones : option (list Milestone);
  dynamicMessage : option string
}.

(** [nextCall = call] *)
Definition asNextCall (call : Call) : NextCall :=
  mkNextCall (number call) (callLabel call) (eligible call) (completed call)
             (required call) (getMessage call) None None.

(** [{ ...call, requiredMilestones: [] }] *)
Definition readyCall (call : Call) : NextCall :=
  mkNextCall (number call) (callLabel call) (eligible call) (completed call)
             (required call) (getMessage call) (Some []) None.

(** [{ ...call, requiredMilestones: call.required, eligible: false }] *)
Definition workingTowardCall (call : Call) : NextCall :=
  mkNextCall (number call) (callLabel call) false (completed call)
             (required call) (getMessage call) (Some (required call)) None.

(** ** The [calls] table *)

Definition joinLabels (milestones : list MilestoneView) : string :=
  String.concat ", " (map mv_label milestones).

Definition prepMessage (ordinal : string) (milestones : list MilestoneView) : string :=
  "Before you meet your mentor for your " ++ ordinal
  ++ " mentor call, our team will ensure that these milestones are completed: "
  ++ joinLabels milestones
  ++ ". We're here to guide you through each step and ensure everything is in place for a productive mentoring session.".

Definition finalMessage : string :=
  "Congratulations! You've completed all the prerequisites. You're now ready for your final mentor call. Our team has ensured everything is in place for this milestone conversation about your career journey.".

Definition calls (status : UserStatus) : list Call :=
  [ mkCall 1 "First Mentor Call"
      (eligibleForFirstMentorCall status) (firstMentorCallCompletedAt status)
      [ mkMilestone "orientation" "Orientation Complete" Rocket;
        mkMilestone "resumeRebuilding" "Resume Rebuilt" FileText ]
      (prepMessage "first");
    mkCall 2 "Second Mentor Call"
      (eligibleForSecondMentorCall status) (secondMentorCallCompletedAt status)
      [ mkMilestone "resumeConfirmed" "Resume Confirmed" Award;
        mkMilestone "portfolioBuildingAndConfirmed" "Portfolio Ready" Award ]
      (prepMessage "second");
    mkCall 3 "Third Mentor Call"
      (eligibleForThirdMentorCall status) (thirdMentorCallCompletedAt status)
      [ mkMilestone "techDistributionAndExtension" "Tech Stack Defined" Zap ]
      (prepMessage "third");
    mkCall 4 "Fourth Mentor Call"
      (eligibleForFourthMentorCall status) (fourthMentorCallCompletedAt status)
      [ mkMilestone "cheatSheetBuiltOut" "Cheat Sheet Created" BookOpen;
        mkMilestone "hasAppliedEnoughJobs" "Jobs Applied" Target ]
      (prepMessage "fourth");
    mkCall 5 "Fifth Mentor Call"
      (eligibleForFifthMentorCall status) (fifthMentorCallCompletedAt status)
      []
      (fun _ => finalMessage) ].

(** ** The scan loop *)

(** [scheduledCallNumbers.includes(n)] *)
Definition includes (scheduledCallNumbers : list Z) (n : Z) : bool :=
  existsb (Z.eqb n) scheduledCallNumbers.

(** [call.completed] used as a condition. *)
Definition isCompleted (call : Call) : bool :=
  truthy (nullable (completed call)).

(** [call.required.every(r => status[r.key])] *)
Definition allRequiredDone (status : UserStatus) (call : Call) : bool :=
  forallb (fun r => truthy (status_get status (key r))) (required call).

(** The [for (const call of calls)] loop; [None] is [nextCall] still [null]
    when the loop runs off the end of the array. *)
Fixpoint scan (status : UserStatus) (scheduledCallNumbers : list Z)
         (cs : list Call) : option NextCall :=
  match cs with
  | [] => None
  | call :: rest =>
      if isCompleted call then scan status scheduledCallNumbers rest
      else if includes scheduledCallNumbers (number call)
      then scan status scheduledCallNumbers rest
      else if eligible call && (List.length (required call) =? 0)%nat
      then Some (asNextCall call)
      else if eligible call && allRequiredDone status call
      then Some (readyCall call)
      else if negb (eligible call) && (0 <? List.length (required call))%nat
      then Some (workingTowardCall call)
      else scan status scheduledCallNumbers rest
  end.

(** ** Fallback and derived flags *)

(** [calls.find(c => !c.completed && !scheduledCallNumbers.includes(c.number))] *)
Definition findOpen (scheduledCallNumbers : list Z) (cs : list Call) : option Call :=
  find (fun c => negb (isCompleted c) && negb (includes scheduledCallNumbers (number c))) cs.

(** [nextCall] after the loop and the [if (!nextCall)] fallback;
    [calls[0]] is [hd_error], [undefined] on an empty array. *)
Definition selectNextCall (status : UserStatus) (scheduledCallNumbers : list Z)
  : option NextCall :=
  match scan status scheduledCallNumbers (calls status) with
  | Some nextCall => Some nextCall
  | None =>
      match findOpen scheduledCallNumbers (calls status) with
      | Some c => Some (asNextCall c)
      | None => option_map asNextCall (hd_error (calls status))
      end
  end.

(** [nextCall?.number || 0] *)
Definition numberOrZero (nextCall : option NextCall) : Z :=
  match nextCall with
  | Some nc => if nc_number nc =? 0 then 0 else nc_number nc
  | None => 0
  end.

(** [nextCall?.eligible && (nextCall as any).requiredMilestones?.length === 0];
    an absent [requiredMilestones] makes the comparison [undefined === 0]. *)
Definition computeIsEligible (nextCall : option NextCall) : bool :=
  match nextCall with
  | Some nc =>
      nc_eligible nc &&
      match requiredMilestones nc with
      | Some ms => (List.length ms =? 0)%nat
      | None => false
      end
  | None => false
  end.

(** [Boolean(nextCall?.completed)] *)
Definition computeIsBooked (nextCall : option NextCall) : bool :=
  match nextCall with
  | Some nc => truthy (nullable (nc_completed nc))
  | None => false
  end.

(** [(nextCall as any).requiredMilestones || nextCall?.required || []];
    an array, even an empty one, is truthy. *)
Definition displayedMilestones (nc : NextCall) : list Milestone :=
  match requiredMilestones nc with
  | Some ms => ms
  | None => nc_required nc
  end.

(** One element of [currentMilestones]. *)
Definition viewOf (status : UserStatus) (m : Milestone) : MilestoneView :=
  mkMilestoneView (key m) (label m) (icon m) (truthy (status_get status (key m))).

(** [{ ...nextCall, dynamicMessage: nextCall.getMessage(currentMilestones) }] *)
Definition withDynamicMessage (nc : NextCall) (currentMilestones : list MilestoneView)
  : NextCall :=
  mkNextCall (nc_number nc) (nc_label nc) (nc_eligible nc) (nc_completed nc)
             (nc_required nc) (nc_getMessage nc) (requiredMilestones nc)
             (Some (nc_getMessage nc currentMilestones)).

(** ** Progress percentage *)

(** A small non-negative integer as a double. *)
Definition toNumber (n : nat) : float :=
  PrimFloat.of_uint63 (Uint63.of_Z (Z.of_nat n)).

(** [MILESTONES.filter(m => status[m.key]).length] *)
Definition completedMilestones (status : UserStatus) : nat :=
  List.length (filter (fun m => truthy (status_get status (key m))) MILESTONES).

(** [(completedMilestones / MILESTONES.length) * 100] *)
Definition computeProgress (status : UserStatus) : float :=
  (toNumber (completedMilestones status) / toNumber (List.length MILESTONES) * 100)%float.

(** ** The memoised derivation *)

Record Derived : Type := mkDerived {
  currentMilestones : list MilestoneView;
  nextMentorCall : option NextCall;
  progressPercentage : float;
  isEligible : bool;
  isBooked : bool;
  isScheduled : bool
}.

(** The [useMemo] callback of [UserProgress].  Reading
    [(nextCall as any).requiredMilestones] on a [null] [nextCall] is the one
    place where a [TypeError] could escape. *)
Definition computeNextCall (status : option UserStatus) (scheduledCallNumbers : list Z)
  : Outcome Derived :=
  match status with
  | None => Return (mkDerived [] None 0%float false false false)
  | Some status =>
      let nextCall := selectNextCall status scheduledCallNumbers in
      let isScheduled := includes scheduledCallNumbers (numberOrZero nextCall) in
      let isEligible := computeIsEligible nextCall in
      let isBooked := computeIsBooked nextCall in
      match nextCall with
      | None => Throw "TypeError: Cannot read properties of null (reading 'requiredMilestones')"
      | Some nc =>
          let currentMilestones := map (viewOf status) (displayedMilestones nc) in
          let nextCall := withDynamicMessage nc currentMilestones in
          Return (mkDerived currentMilestones (Some nextCall)
                            (computeProgress status) isEligible isBooked isScheduled)
      end
  end.

(** The number and label carried by [nextMentorCall], when there is one. *)
Definition selectedNumber (d : Derived) : option Z :=
  option_map nc_number (nextMentorCall d).

(** ** The book-call action *)

(** What [handleBookCall] does to the outside, in order. *)
Inductive Effect : Type :=
| SetBooking (b : bool)
| GetIdToken
| PostBookCall (callNumber : Z)
| ToastSuccess (msg : string)
| ToastError (msg : string)
| ConsoleError
| LoadStatus.

(** [await auth.currentUser?.getIdToken()] (with the dynamic import before it). *)
Inductive TokenAnswer : Type :=
| TokenRejected (message : option string)
| TokenAbsent
| TokenValue (token : string).

(** [await fetch(...)], and [await res.json()] on a response that is not ok. *)
Inductive FetchAnswer : Type :=
| FetchRejected (message : option string)
| ResponseOk
| ResponseNotOk (body : Outcome (option string)).

Record World : Type := mkWorld {
  tokenAnswer : TokenAnswer;
  fetchAnswer : FetchAnswer
}.

(** [error.message || 'Failed to book call'] *)
Definition messageOr (message : option string) (fallback : string) : string :=
  match message with
  | Some m => if String.eqb m EmptyString then fallback else m
  | None => fallback
  end.

(** The [catch] block followed by [finally]. *)
Definition caught (message : option string) : list Effect :=
  [ConsoleError; ToastError (messageOr message "Failed to book call"); SetBooking false].

(** [handleBookCall], closed over the [nextMentorCall], [isEligible] and
    [booking] values of the render that created it. *)
Definition handleBookCall (nextMentorCall : option NextCall) (isEligible booking : bool)
           (world : World) : list Effect :=
  match nextMentorCall with
  | None => []
  | Some nc =>
      if negb isEligible || booking then []
      else
        SetBooking true :: GetIdToken ::
        match tokenAnswer world with
        | TokenRejected message => caught message
        | TokenAbsent => [ToastError "Not authenticated"; SetBooking false]
        | TokenValue token =>
            if String.eqb token EmptyString
            then [ToastError "Not authenticated"; SetBooking false]
            else
              PostBookCall (nc_number nc) ::
              match fetchAnswer world with
              | FetchRejected message => caught message
              | ResponseOk =>
                  [ToastSuccess "Call booked successfully!"; LoadStatus; SetBooking false]
              | ResponseNotOk (Return message) =>
                  [ToastError (messageOr message "Failed to book call"); SetBooking false]
              | ResponseNotOk (Throw e) => caught (Some e)
              end
        end
  end.

(** The [booking] state after a run: the last [setBooking] wins. *)
Definition bookingAfter (booking : bool) (trace : list Effect) : bool :=
  fold_left (fun b e => match e with SetBooking b' => b' | _ => b end) trace booking.

(** A network request: the token, the booking POST, the status reload. *)
Definition isNetwork (e : Effect) : bool :=
  match e with
  | GetIdToken | PostBookCall _ | LoadStatus => true
  | _ => false
  end.

(** ** Vocabulary of the properties *)

(** A completion timestamp is set, as the code tests it. *)
Definition isSet (o : option string) : bool := truthy (nullable o).

(** The stage is neither completed nor scheduled. *)
Definition isOpen (scheduledCallNumbers : list Z) (c : Call) : bool :=
  negb (isCompleted c) && negb (includes scheduledCallNumbers (number c)).

(** One of the three selecting conditions of the loop holds for the stage. *)
Definition selectable (status : UserStatus) (c : Call) : bool :=
  (eligible c && allRequiredDone status c)
  || (negb (eligible c) && (0 <? List.length (required c))%nat).

(** How the loop turned the stage it stopped at into [nextCall]. *)
Inductive ScanBranch (status : UserStatus) (c : Call) : NextCall -> Prop :=
| NoRequirements :
    eligible c = true -> required c = [] ->
    ScanBranch status c (asNextCall c)
| AllRequirementsMet :
    eligible c = true -> required c <> [] -> allRequiredDone status c = true ->
    ScanBranch status c (readyCall c)
| WorkingToward :
    eligible c = false -> required c <> [] ->
    ScanBranch status c (workingTowardCall c).

(** Everything the later code reads of [nextCall], by origin: the loop, the
    first fallback ([find]) or the second one ([calls[0]]). *)
Inductive Origin (status : UserStatus) (scheduledCallNumbers : list Z)
          (c : Call) (nc : NextCall) : Prop :=
| FromScan :
    scan status scheduledCallNumbers (calls status) = Some nc ->
    isCompleted c = false -> includes scheduledCallNumbers (number c) = false ->
    ScanBranch status c nc ->
    Origin status scheduledCallNumbers c nc
| FromFind :
    scan status scheduledCallNumbers (calls status) = None ->
    findOpen scheduledCallNumbers (calls status) = Some c ->
    isCompleted c = false -> includes scheduledCallNumbers (number c) = false ->
    nc = asNextCall c ->
    Origin status scheduledCallNumbers c nc
| FromFirst :
    scan status scheduledCallNumbers (calls status) = None ->
    findOpen scheduledCallNumbers (calls status) = None ->
    hd_error (calls status) = Some c -> number c = 1 ->
    nc = asNextCall c ->
    Origin status scheduledCallNumbers c nc.

(** The number of the seven [MILESTONES] flags that are true. *)
Definition milestonesTrueCount (status : UserStatus) : nat :=
  (Nat.b2n (orientation status) + Nat.b2n (resumeRebuilding status)
   + Nat.b2n (resumeConfirmed status) + Nat.b2n (portfolioBuildingAndConfirmed status)
   + Nat.b2n (techDistributionAndExtension status) + Nat.b2n (cheatSheetBuiltOut status)
   + Nat.b2n (hasAppliedEnoughJobs status))%nat.

(** Every milestone flag that is true in [a] is true in [b]. *)
Definition flagsLe (a b : UserStatus) : bool :=
  implb (orientation a) (orientation b)
  && implb (resumeRebuilding a) (resumeRebuilding b)
  && implb (resumeConfirmed a) (resumeConfirmed b)
  && implb (portfolioBuildingAndConfirmed a) (portfolioBuildingAndConfirmed b)
  && implb (techDistributionAndExtension a) (techDistributionAndExtension b)
  && implb (cheatSheetBuiltOut a) (cheatSheetBuiltOut b)
  && implb (hasAppliedEnoughJobs a) (hasAppliedEnoughJobs b).

(** The timestamp is present ([null] is [None]). *)
Definition isPresent (o : option string) : bool :=
  match o with
  | Some _ => true
  | None => false
  end.

(** All five completion timestamps are present. *)
Definition allCompleted (status : UserStatus) : Prop :=
  firstMentorCallCompletedAt status <> None
  /\ secondMentorCallCompletedAt status <> None
  /\ thirdMentorCallCompletedAt status <> None
  /\ fourthMentorCallCompletedAt status <> None
  /\ fifthMentorCallCompletedAt status <> None.

(** ** Sample snapshots *)

(** Nothing done, nothing unlocked. *)
Definition statusFresh : UserStatus :=
  mkUserStatus "u1" false false false None false false false None
               false false None false false false None false false None.

(** Stage 1 unlocked by the backend while [orientation] is still false. *)
Definition statusEligibleUnmet : UserStatus :=
  mkUserStatus "u1" false true true None false false false None
               false false None false false false None false false None.

(** Stage 1 unlocked with both its milestones done. *)
Definition statusReadyFirst : UserStatus :=
  mkUserStatus "u1" true true true None false false false None
               false false None false false false None false false None.

(** Stages 1 to 4 held, stage 5 unlocked. *)
Definition statusFinalUnlocked : UserStatus :=
  mkUserStatus "u1" true true true (Some "2025-01-10T10:00:00.000Z")
               true true true (Some "2025-02-10T10:00:00.000Z")
               true true (Some "2025-03-10T10:00:00.000Z")
               true true true (Some "2025-04-10T10:00:00.000Z")
               false true None.

(** All five calls held. *)
Definition statusAllDone : UserStatus :=
  mkUserStatus "u1" true true true (Some "2025-01-10T10:00:00.000Z")
               true true true (Some "2025-02-10T10:00:00.000Z")
               true true (Some "2025-03-10T10:00:00.000Z")
               true true true (Some "2025-04-10T10:00:00.000Z")
               true true (Some "2025-05-10T10:00:00.000Z").

(** ** What the component renders *)

(** An element of the [scheduledCalls] prop, as the page builds it. *)
Record ScheduledCall : Type := mkScheduledCall {
  callNumber : Z;
  scheduledAt : JsValue;
  googleMeetLink : JsValue
}.

(** The three [useState] cells of the component. *)
Record ViewState : Type := mkViewState {
  vs_status : option UserStatus;
  vs_loading : bool;
  vs_booking : bool
}.

(** [toLowerCase] on one ASCII character. *)
Definition lowerAscii (a : ascii) : ascii :=
  let n := nat_of_ascii a in
  if (65 <=? n)%nat && (n <=? 90)%nat then ascii_of_nat (n + 32) else a.

(** [s.toLowerCase()], for the ASCII labels of the table. *)
Fixpoint toLowerCase (s : string) : string :=
  match s with
  | EmptyString => EmptyString
  | String a rest => String (lowerAscii a) (toLowerCase rest)
  end.

(** [s || fallback] on strings. *)
Definition orElse (s fallback : string) : string :=
  if String.eqb s EmptyString then fallback else s.

(** The template literal behind [dynamicMessage ||] in the checklist block. *)
Definition fallbackMessage (callLabel : string) (milestones : list MilestoneView) : string :=
  "Before you meet your mentor for your "
  ++ orElse (toLowerCase callLabel) "mentor call"
  ++ ", our team will ensure that these milestones are completed: "
  ++ joinLabels milestones
  ++ ". We're here to guide you through each step and ensure everything is in place for a productive mentoring session.".

(** The sentence that follows the count in the blue banner. *)
Inductive BannerTail : Type :=
| AfterScheduledCalls (lowerLabel : string)
| AlreadyScheduled (lowerLabel : string).

Record Banner : Type := mkBanner {
  bannerCount : nat;
  bannerPlural : bool;
  bannerTail : BannerTail
}.

(** The card, block by block, in source order. *)
Record Card : Type := mkCard {
  flagAnimated : bool;
  flagGreen : bool;
  title : string;
  completedBadge : bool;
  readyBadge : bool;
  banner : option Banner;
  checklistBlock : option (string * list MilestoneView);
  readyBlock : option string;
  bookedBlock : option string
}.

Inductive Screen : Type :=
| Skeleton
| RendersNothing
| Shown (card : Card).

(** The [return (...)] of the component once it is past both early returns. *)
Definition renderCard (scheduledCalls : list ScheduledCall) (nc : NextCall)
           (d : Derived) : Card :=
  mkCard
    (isBooked d || isEligible d)
    (if isBooked d then true else if isEligible d then true else false)
    (if (0 <? List.length scheduledCalls)%nat then "Next Available Call" else nc_label nc)
    (isBooked d)
    (isEligible d && negb (isBooked d) && negb (isScheduled d))
    (if (0 <? List.length scheduledCalls)%nat
     then Some (mkBanner (List.length scheduledCalls)
                         (1 <? List.length scheduledCalls)%nat
                         (if isScheduled d
                          then AlreadyScheduled (toLowerCase (nc_label nc))
                          else AfterScheduledCalls (toLowerCase (nc_label nc))))
     else None)
    (if negb (isBooked d) && negb (isEligible d)
        && (0 <? List.length (currentMilestones d))%nat
     then Some (match dynamicMessage nc with
                | Some m => orElse m (fallbackMessage (nc_label nc) (currentMilestones d))
                | None => fallbackMessage (nc_label nc) (currentMilestones d)
                end,
                currentMilestones d)
     else None)
    (if isEligible d && negb (isBooked d) then Some (toLowerCase (nc_label nc)) else None)
    (if isBooked d then Some (toLowerCase (nc_label nc)) else None).

(** The two early returns, then the card. *)
Definition render (loading : bool) (status : option UserStatus)
           (scheduledCalls : list ScheduledCall) (d : Derived) : Screen :=
  if loading then Skeleton
  else match status, nextMentorCall d with
       | Some _, Some nc => Shown (renderCard scheduledCalls nc d)
       | _, _ => RendersNothing
       end.

(** One render of [UserProgress]: the memo runs before the early returns. *)
Definition UserProgress (scheduledCalls : list ScheduledCall) (state : ViewState)
  : Outcome Screen :=
  let scheduledCallNumbers := map callNumber scheduledCalls in
  match computeNextCall (vs_status state) scheduledCallNumbers with
  | Return d => Return (render (vs_loading state) (vs_status state) scheduledCalls d)
  | Throw e => Throw e
  end.

(** The number of body blocks (checklist, ready, booked) a card shows. *)
Definition shown {A : Type} (block : option A) : nat :=
  match block with
  | Some _ => 1%nat
  | None => 0%nat
  end.

Definition bodyBlocks (card : Card) : nat :=
  (shown (checklistBlock card) + shown (readyBlock card) + shown (bookedBlock card))%nat.

(** ** Loading the status *)

Inductive LoadEffect : Type :=
| SetLoading (b : bool)
| LoadGetIdToken
| FetchStatus
| SetStatus (s : option UserStatus)
| LoadConsoleError.

(** [await fetch(.../status)], and [(await res.json()).userStatus] on an ok
    response ([None]: the body carries no [userStatus]). *)
Inductive StatusAnswer : Type :=
| StatusRejected
| StatusOk (body : Outcome (option UserStatus))
| StatusNotOk.

(** [loadStatus] *)
Definition loadStatus (token : TokenAnswer) (answer : StatusAnswer) : list LoadEffect :=
  SetLoading true :: LoadGetIdToken ::
  match token with
  | TokenRejected _ => [LoadConsoleError; SetLoading false]
  | TokenAbsent => [SetLoading false]
  | TokenValue t =>
      if String.eqb t EmptyString then [SetLoading false]
      else
        FetchStatus ::
        match answer with
        | StatusRejected => [LoadConsoleError; SetLoading false]
        | StatusOk (Return s) => [SetStatus s; SetLoading false]
        | StatusOk (Throw _) => [LoadConsoleError; SetLoading false]
        | StatusNotOk => [SetLoading false]
        end
  end.

(** The state cells after the setters of a run have been applied in order. *)
Definition applyLoad (state : ViewState) (trace : list LoadEffect) : ViewState :=
  fold_left (fun st e =>
               match e with
               | SetLoading b => mkViewState (vs_status st) b (vs_booking st)
               | SetStatus s => mkViewState s (vs_loading st) (vs_booking st)
               | _ => st
               end) trace state.

(** Toasts in a run of [handleBookCall]. *)
Definition isToast (e : Effect) : bool :=
  match e with
  | ToastSuccess _ | ToastError _ => true
  | _ => false
  end.

Definition isPost (e : Effect) : bool :=
  match e with
  | PostBookCall _ => true
  | _ => false
  end.

Definition isReload (e : Effect) : bool :=
  match e with
  | LoadStatus => true
  | _ => false
  end.

(** ** The page that mounts the component *)

(** The [userStatus] object as the page reads it: the fields of
    [UserStatus] and, per call, a scheduled time and a meeting link. *)
Record StatusJson : Type := mkStatusJson {
  coreStatus : UserStatus;
  firstMentorCallScheduledAt : option string;
  firstMentorCallGoogleMeetLink : option string;
  secondMentorCallScheduledAt : option string;
  secondMentorCallGoogleMeetLink : option string;
  thirdMentorCallScheduledAt : option string;
  thirdMentorCallGoogleMeetLink : option string;
  fourthMentorCallScheduledAt : option string;
  fourthMentorCallGoogleMeetLink : option string;
  fifthMentorCallScheduledAt : option string;
  fifthMentorCallGoogleMeetLink : option string
}.

(** [status[field]] on that object. *)
Definition json_get (status : StatusJson) (k : string) : JsValue :=
  if String.eqb k "firstMentorCallScheduledAt" then nullable (firstMentorCallScheduledAt status)
  else if String.eqb k "firstMentorCallGoogleMeetLink" then nullable (firstMentorCallGoogleMeetLink status)
  else if String.eqb k "secondMentorCallScheduledAt" then nullable (secondMentorCallScheduledAt status)
  else if String.eqb k "secondMentorCallGoogleMeetLink" then nullable (secondMentorCallGoogleMeetLink status)
  else if String.eqb k "thirdMentorCallScheduledAt" then nullable (thirdMentorCallScheduledAt status)
  else if String.eqb k "thirdMentorCallGoogleMeetLink" then nullable (thirdMentorCallGoogleMeetLink status)
  else if String.eqb k "fourthMentorCallScheduledAt" then nullable (fourthMentorCallScheduledAt status)
  else if String.eqb k "fourthMentorCallGoogleMeetLink" then nullable (fourthMentorCallGoogleMeetLink status)
  else if String.eqb k "fifthMentorCallScheduledAt" then nullable (fifthMentorCallScheduledAt status)
  else if String.eqb k "fifthMentorCallGoogleMeetLink" then nullable (fifthMentorCallGoogleMeetLink status)
  else status_get (coreStatus status) k.

(** [i === 1 ? 'first' : i === 2 ? 'second' : ... : 'fifth'] *)
Definition ordinalOf (i : Z) : string :=
  if i =? 1 then "first"
  else if i =? 2 then "second"
  else if i =? 3 then "third"
  else if i =? 4 then "fourth"
  else "fifth".

(** The body of the [for (let i = 1; i <= 5; i++)] loop of [loadData]:
    what iteration [i] pushes. *)
Definition scheduledEntry (status : StatusJson) (i : Z) : list ScheduledCall :=
  let scheduledAtField := ordinalOf i ++ "MentorCallScheduledAt" in
  let googleMeetField := ordinalOf i ++ "MentorCallGoogleMeetLink" in
  let completedAtField := ordinalOf i ++ "MentorCallCompletedAt" in
  if truthy (json_get status scheduledAtField)
     && negb (truthy (json_get status completedAtField))
  then [mkScheduledCall i (json_get status scheduledAtField)
                        (json_get status googleMeetField)]
  else [].

(** [calls] of [loadData] when the loop is over, before [calls.sort]. *)
Definition collectScheduled (status : StatusJson) : list ScheduledCall :=
  flat_map (scheduledEntry status) [1; 2; 3; 4; 5].

(** The scheduled time of call [i], as the loop tests it. *)
Definition hasScheduledAt (status : StatusJson) (i : Z) : bool :=
  truthy (json_get status (ordinalOf i ++ "MentorCallScheduledAt")).

(** The completion time of call [i], as the loop tests it. *)
Definition hasCompletedAt (status : StatusJson) (i : Z) : bool :=
  truthy (json_get status (ordinalOf i ++ "MentorCallCompletedAt")).

(** ** Avatar colour *)

(** [ToInt32] on an integer-valued number. *)
Definition toInt32 (z : Z) : Z :=
  let m := z mod 2 ^ 32 in
  if m <? 2 ^ 31 then m else m - 2 ^ 32.

(** [hash << 5] *)
Definition shiftLeft5 (hash : Z) : Z :=
  toInt32 (Z.shiftl (toInt32 hash) 5).

Definition colors : list string :=
  [ "bg-blue-500"; "bg-green-500"; "bg-purple-500"; "bg-pink-500";
    "bg-indigo-500"; "bg-red-500"; "bg-yellow-500"; "bg-teal-500" ].

(** [hash = name.charCodeAt(i) + ((hash << 5) - hash)] *)
Definition hashStep (hash : Z) (charCode : Z) : Z :=
  charCode + (shiftLeft5 hash - hash).

(** The loop of [getColorFromName] over the UTF-16 code units of [name]. *)
Definition nameHash (name : list Z) : Z :=
  fold_left hashStep name 0.

(** [colors[Math.abs(hash) % colors.length]]; [None] is [undefined].  The
    integer arithmetic is that of the doubles as long as [hash] stays
    within [2 ^ 53]. *)
Definition getColorFromName (name : list Z) : option string :=
  nth_error colors
            (Z.to_nat (Z.rem (Z.abs (nameHash name)) (Z.of_nat (List.length colors)))).

(** A string of UTF-16 code units. *)
Definition codeUnits (name : list Z) : Prop :=
  Forall (fun c => 0 <= c <= 65535) name.

(** Stages 1 to 4 unlocked by the backend with no milestone done, stage 5
    locked. *)
Definition statusUnlockedEarly : UserStatus :=
  mkUserStatus "u1" false false true None false false true None
               false true None false false true None false false None.

(** Every call has a slot, none has taken place. *)
Definition jsonAllScheduled : StatusJson :=
  mkStatusJson statusFresh
               (Some "2025-06-01T10:00:00.000Z") (Some "https://meet.example/a")
               (Some "2025-06-08T10:00:00.000Z") None
               (Some "2025-06-15T10:00:00.000Z") None
               (Some "2025-06-22T10:00:00.000Z") None
               (Some "2025-06-29T10:00:00.000Z") None.

(** Stage 2 unlocked by the backend while [resumeConfirmed] is still false;
    stages 1 and 3 locked, nothing completed. *)
Definition statusSecondEligibleUnmet : UserStatus :=
  mkUserStatus "u1" false false false None false true true None
               false false None false false false None false false None.

(** A signed-in user and a backend that accepts the booking. *)
Definition worldAccepting : World :=
  mkWorld (TokenValue "id-token") ResponseOk.

(** ** Lemmas about the scan loop *)

Section Scan.

Variable status : UserStatus.
Variable scheduledCallNumbers : list Z.

Lemma required_empty_length (c : Call) :
  (List.length (required c) =? 0)%nat = true <-> required c = [].
Proof.
  destruct (required c); simpl; split; intro H; try reflexivity; discriminate.
Qed.

Lemma required_nonempty_length (c : Call) :
  (0 <? List.length (required c))%nat = true <-> required c <> [].
Proof.
  destruct (required c); simpl; split; intro H;
    try discriminate; try reflexivity; congruence.
Qed.

(** Whatever the loop stops at is an open stage of the array, reached by
    one of the three selecting branches. *)
Lemma scan_some_inv (cs : list Call) (nc : NextCall) :
  scan status scheduledCallNumbers cs = Some nc ->
  exists c, In c cs /\ isCompleted c = false
            /\ includes scheduledCallNumbers (number c) = false
            /\ ScanBranch status c nc.
Proof.
  induction cs as [|call rest IH]; simpl; [discriminate|].
  destruct (isCompleted call) eqn:Hdone.
  { intro H. destruct (IH H) as (c & Hin & Hc). exists c. tauto. }
  destruct (includes scheduledCallNumbers (number call)) eqn:Hsched.
  { intro H. destruct (IH H) as (c & Hin & Hc). exists c. tauto. }
  destruct (eligible call) eqn:Hel; simpl.
  - destruct (List.length (required call) =? 0)%nat eqn:Hlen.
    + intro H. inversion H; subst. exists call.
      repeat split; auto.
      apply NoRequirements; [assumption | now apply required_empty_length].
    + destruct (allRequiredDone status call) eqn:Hall.
      * intro H. inversion H; subst. exists call.
        repeat split; auto.
        apply AllRequirementsMet; auto.
        intro Hnil. apply required_empty_length in Hnil. congruence.
      * intro H. destruct (IH H) as (c & Hin & Hc). exists c. tauto.
  - destruct (0 <? List.length (required call))%nat eqn:Hlen.
    + intro H. inversion H; subst. exists call.
      repeat split; auto.
      apply WorkingToward; [assumption | now apply required_nonempty_length].
    + intro H. destruct (IH H) as (c & Hin & Hc). exists c. tauto.
Qed.

(** With no requirement every requirement is met. *)
Lemma allRequiredDone_nil (c : Call) :
  required c = [] -> allRequiredDone status c = true.
Proof. unfold allRequiredDone. intros ->. reflexivity. Qed.

(** The loop stops at the first open stage that meets a selecting
    condition; stages before it are passed over. *)
Lemma scan_number_find (cs : list Call) :
  option_map nc_number (scan status scheduledCallNumbers cs)
  = option_map number
      (find (fun c => isOpen scheduledCallNumbers c && selectable status c) cs).
Proof.
  induction cs as [|call rest IH]; simpl; [reflexivity|].
  unfold isOpen, selectable.
  destruct (isCompleted call); simpl; [exact IH|].
  destruct (includes scheduledCallNumbers (number call)); simpl; [exact IH|].
  destruct (eligible call); simpl.
  - destruct (List.length (required call) =? 0)%nat eqn:Hlen.
    + apply required_empty_length in Hlen.
      rewrite (allRequiredDone_nil _ Hlen). reflexivity.
    + destruct (allRequiredDone status call); simpl; [reflexivity | exact IH].
  - destruct (0 <? List.length (required call))%nat; simpl; [reflexivity | exact IH].
Qed.

(** An ineligible first open stage with requirements ends the loop. *)
Lemma scan_first_open_working (cs : list Call) (c : Call) :
  findOpen scheduledCallNumbers cs = Some c ->
  eligible c = false -> required c <> [] ->
  scan status scheduledCallNumbers cs = Some (workingTowardCall c).
Proof.
  unfold findOpen. induction cs as [|call rest IH]; simpl; [discriminate|].
  destruct (isCompleted call); simpl; [exact IH|].
  destruct (includes scheduledCallNumbers (number call)); simpl; [exact IH|].
  intros H Hel Hreq. inversion H; subst.
  rewrite Hel. simpl.
  apply required_nonempty_length in Hreq. rewrite Hreq. reflexivity.
Qed.

(** The first fallback never yields a completed or a scheduled stage. *)
Lemma findOpen_some_inv (cs : list Call) (c : Call) :
  findOpen scheduledCallNumbers cs = Some c ->
  In c cs /\ isCompleted c = false /\ includes scheduledCallNumbers (number c) = false.
Proof.
  unfold findOpen. intro H. apply find_some in H. destruct H as [Hin H].
  apply andb_true_iff in H. destruct H as [H1 H2].
  apply negb_true_iff in H1. apply negb_true_iff in H2. auto.
Qed.

End Scan.

(** The five stage numbers, in array order. *)
Lemma calls_numbers (status : UserStatus) :
  map number (calls status) = [1; 2; 3; 4; 5].
Proof. reflexivity. Qed.

Lemma calls_number_range (status : UserStatus) (c : Call) :
  In c (calls status) -> 1 <= number c <= 5.
Proof.
  intro H. apply (in_map number) in H. rewrite calls_numbers in H.
  simpl in H. lia.
Qed.

(** [selectNextCall] always finds a stage of the array. *)
Lemma selectNextCall_some (status : UserStatus) (scheduledCallNumbers : list Z) :
  exists nc, selectNextCall status scheduledCallNumbers = Some nc
             /\ exists c, In c (calls status) /\ nc_number nc = number c.
Proof.
  unfold selectNextCall.
  destruct (scan status scheduledCallNumbers (calls status)) as [nc|] eqn:Hscan.
  - exists nc. split; [reflexivity|].
    apply scan_some_inv in Hscan. destruct Hscan as (c & Hin & _ & _ & Hb).
    exists c. split; [assumption|]. destruct Hb; reflexivity.
  - destruct (findOpen scheduledCallNumbers (calls status)) as [c|] eqn:Hfind.
    + exists (asNextCall c). split; [reflexivity|].
      exists c. split; [|reflexivity].
      apply findOpen_some_inv in Hfind. tauto.
    + simpl. eexists. split; [reflexivity|].
      eexists. split; [left; reflexivity | reflexivity].
Qed.

(** Once [nextCall] is known the memo returns, with these fields. *)
Lemma computeNextCall_unfold (status : UserStatus) (scheduledCallNumbers : list Z)
      (nc : NextCall) :
  selectNextCall status scheduledCallNumbers = Some nc ->
  computeNextCall (Some status) scheduledCallNumbers
  = Return (mkDerived (map (viewOf status) (displayedMilestones nc))
                      (Some (withDynamicMessage nc
                               (map (viewOf status) (displayedMilestones nc))))
                      (computeProgress status)
                      (computeIsEligible (Some nc))
                      (computeIsBooked (Some nc))
                      (includes scheduledCallNumbers (numberOrZero (Some nc)))).
Proof. unfold computeNextCall. intros ->. reflexivity. Qed.

Lemma ScanBranch_fields (status : UserStatus) (c : Call) (nc : NextCall) :
  ScanBranch status c nc ->
  nc_number nc = number c /\ nc_completed nc = completed c
  /\ nc_required nc = required c.
Proof. intros []; repeat split; reflexivity. Qed.

(** The three ways [nextCall] gets its value. *)
Lemma selectNextCall_cases (status : UserStatus) (scheduledCallNumbers : list Z) :
  (exists nc, scan status scheduledCallNumbers (calls status) = Some nc
              /\ selectNextCall status scheduledCallNumbers = Some nc)
  \/ (scan status scheduledCallNumbers (calls status) = None
      /\ exists c, findOpen scheduledCallNumbers (calls status) = Some c
                   /\ selectNextCall status scheduledCallNumbers = Some (asNextCall c))
  \/ (scan status scheduledCallNumbers (calls status) = None
      /\ findOpen scheduledCallNumbers (calls status) = None
      /\ exists c, hd_error (calls status) = Some c /\ number c = 1
                   /\ selectNextCall status scheduledCallNumbers = Some (asNextCall c)).
Proof.
  unfold selectNextCall.
  destruct (scan status scheduledCallNumbers (calls status)) as [nc|].
  - left. exists nc. auto.
  - destruct (findOpen scheduledCallNumbers (calls status)) as [c|].
    + right. left. split; [reflexivity|]. exists c. auto.
    + right. right. repeat split. eexists. repeat split.
Qed.

(** ** The scan and its stopping point *)

(** C1, as stated, fails: with stage 1 unlocked while [orientation] is still
    false and nothing scheduled, stage 1 is the first stage that is neither
    completed nor scheduled, yet the loop passes over it and stops at
    stage 2. *)
Lemma scan_passes_eligible_unmet_stage :
  option_map number (findOpen [] (calls statusEligibleUnmet)) = Some 1
  /\ option_map nc_number (scan statusEligibleUnmet [] (calls statusEligibleUnmet)) = Some 2.
Proof. split; reflexivity. Qed.

(** C1 (amended): for every snapshot and every list of scheduled numbers the
    loop stops at the first stage that is neither completed nor scheduled
    and that meets a selecting condition (unlocked with every required
    milestone true, or locked with at least one required milestone); when
    the first stage that is neither completed nor scheduled is locked and
    has required milestones, the loop stops there, [nextCall] is the
    working-toward object of that stage, and the checklist is its required
    milestones, each with its current completion. *)
Theorem scan_stops_at_first_selectable
        (status : UserStatus) (scheduledCallNumbers : list Z) :
  option_map nc_number (scan status scheduledCallNumbers (calls status))
  = option_map number
      (find (fun c => isOpen scheduledCallNumbers c && selectable status c)
            (calls status))
  /\ forall c : Call,
      findOpen scheduledCallNumbers (calls status) = Some c ->
      eligible c = false -> required c <> [] ->
      scan status scheduledCallNumbers (calls status) = Some (workingTowardCall c)
      /\ exists d, computeNextCall (Some status) scheduledCallNumbers = Return d
                   /\ selectedNumber d = Some (number c)
                   /\ currentMilestones d = map (viewOf status) (required c).
Proof.
  split; [apply scan_number_find|].
  intros c Hfind Hel Hreq.
  pose proof (scan_first_open_working status _ _ _ Hfind Hel Hreq) as Hscan.
  split; [exact Hscan|].
  assert (Hsel : selectNextCall status scheduledCallNumbers = Some (workingTowardCall c)).
  { unfold selectNextCall. rewrite Hscan. reflexivity. }
  eexists. split; [apply (computeNextCall_unfold _ _ _ Hsel)|].
  split; reflexivity.
Qed.

Lemma scan_stops_at_first_selectable_witness :
  exists d, computeNextCall (Some statusFresh) [] = Return d
            /\ selectedNumber d = Some 1
            /\ currentMilestones d
               = [ mkMilestoneView "orientation" "Orientation Complete" Rocket false;
                   mkMilestoneView "resumeRebuilding" "Resume Rebuilt" FileText false ].
Proof.
  destruct (scan_stops_at_first_selectable statusFresh []) as [_ H].
  destruct (H _ eq_refl eq_refl ltac:(discriminate)) as [_ Hd].
  exact Hd.
Defined.

(** ** Totality *)

(** C3: on a non-null snapshot and any list of scheduled numbers the
    derivation returns (no [TypeError] escapes; the model has no other
    effect), and [nextMentorCall] is one stage of the table, numbered 1
    to 5. *)
Theorem computeNextCall_total (status : UserStatus) (scheduledCallNumbers : list Z) :
  exists d nc c,
    computeNextCall (Some status) scheduledCallNumbers = Return d
    /\ nextMentorCall d = Some nc
    /\ In c (calls status) /\ nc_number nc = number c
    /\ 1 <= nc_number nc <= 5.
Proof.
  destruct (selectNextCall_some status scheduledCallNumbers)
    as (nc & Hsel & c & Hin & Hnum).
  eexists. exists (withDynamicMessage nc (map (viewOf status) (displayedMilestones nc))), c.
  split; [apply (computeNextCall_unfold _ _ _ Hsel)|].
  simpl. repeat split; auto; rewrite Hnum; apply (calls_number_range status c Hin).
Qed.

(** ** The ready flag on the final stage *)

(** C2, at the input where the code departs from it: stages 1 to 4 held and
    stage 5 unlocked.  The loop stops at stage 5 through its first branch,
    which leaves [requiredMilestones] absent; the stage is unlocked and the
    displayed checklist is empty, yet [isEligible] is false. *)
Theorem final_stage_unlocked_not_ready :
  exists d nc,
    computeNextCall (Some statusFinalUnlocked) [] = Return d
    /\ nextMentorCall d = Some nc
    /\ nc_number nc = 5 /\ nc_eligible nc = true
    /\ requiredMilestones nc = None
    /\ currentMilestones d = []
    /\ isEligible d = false.
Proof.
  eexists. eexists. split; [vm_compute; reflexivity|].
  repeat split; reflexivity.
Qed.

(** Away from that branch the flag is as described: whenever the returned
    stage has at least one required milestone, [isEligible] holds exactly
    when the stage is unlocked and the displayed checklist is empty. *)
Lemma isEligible_with_requirements
      (status : UserStatus) (scheduledCallNumbers : list Z) :
  exists d nc,
    computeNextCall (Some status) scheduledCallNumbers = Return d
    /\ nextMentorCall d = Some nc
    /\ (nc_required nc <> [] ->
        isEligible d
        = nc_eligible nc && (List.length (currentMilestones d) =? 0)%nat).
Proof.
  assert (Hfb : forall c : Call,
             required c <> [] ->
             eligible c && false
             = eligible c && (List.length (map (viewOf status) (required c)) =? 0)%nat).
  { intros c Hreq. destruct (required c); [congruence|].
    simpl. reflexivity. }
  destruct (selectNextCall_cases status scheduledCallNumbers)
    as [(nc & Hscan & Hsel) | [(_ & c & _ & Hsel) | (_ & _ & c & _ & _ & Hsel)]].
  - eexists.
    exists (withDynamicMessage nc (map (viewOf status) (displayedMilestones nc))).
    split; [apply (computeNextCall_unfold _ _ _ Hsel)|].
    split; [reflexivity|].
    apply scan_some_inv in Hscan. destruct Hscan as (c & _ & _ & _ & Hb).
    destruct Hb as [Hel Hreq | Hel Hreq Hall | Hel Hreq]; cbn; intro Hne.
    + congruence.
    + reflexivity.
    + reflexivity.
  - eexists.
    exists (withDynamicMessage (asNextCall c)
              (map (viewOf status) (displayedMilestones (asNextCall c)))).
    split; [apply (computeNextCall_unfold _ _ _ Hsel)|].
    split; [reflexivity|]. cbn. apply Hfb.
  - eexists.
    exists (withDynamicMessage (asNextCall c)
              (map (viewOf status) (displayedMilestones (asNextCall c)))).
    split; [apply (computeNextCall_unfold _ _ _ Hsel)|].
    split; [reflexivity|]. cbn. apply Hfb.
Qed.

(** ** Completed stages and [isBooked] *)

Lemma isSet_wf (o : option string) :
  timestamp_ok o = true -> truthy (nullable o) = isPresent o.
Proof. destruct o; simpl; auto. Qed.

Lemma calls_timestamp_ok (status : UserStatus) (c : Call) :
  wf_status status = true -> In c (calls status) -> timestamp_ok (completed c) = true.
Proof.
  unfold wf_status. intros Hwf Hin.
  repeat (apply andb_true_iff in Hwf; destruct Hwf as [Hwf ?]).
  simpl in Hin.
  repeat (destruct Hin as [<-|Hin]; [assumption|]). contradiction.
Qed.

Lemma calls_all_completed (status : UserStatus) (c : Call) :
  allCompleted status -> In c (calls status) -> completed c <> None.
Proof.
  intros (H1 & H2 & H3 & H4 & H5) Hin. simpl in Hin.
  repeat (destruct Hin as [<-|Hin]; [assumption|]). contradiction.
Qed.

(** C4: on a well-formed snapshot the derivation returns a stage whose
    [isBooked] says whether that stage's completion timestamp is present;
    [isBooked] can be true only when both the loop and the first fallback
    found nothing and stage 1 was taken unconditionally; and when all five
    timestamps are present the result is stage 1 with [isBooked] true. *)
Theorem isBooked_only_by_last_fallback
        (status : UserStatus) (scheduledCallNumbers : list Z) :
  wf_status status = true ->
  exists d nc,
    computeNextCall (Some status) scheduledCallNumbers = Return d
    /\ nextMentorCall d = Some nc
    /\ isBooked d = isPresent (nc_completed nc)
    /\ (isBooked d = true ->
        scan status scheduledCallNumbers (calls status) = None
        /\ findOpen scheduledCallNumbers (calls status) = None
        /\ nc_number nc = 1)
    /\ (allCompleted status -> nc_number nc = 1 /\ isBooked d = true).
Proof.
  intro Hwf.
  destruct (selectNextCall_cases status scheduledCallNumbers)
    as [(nc & Hscan & Hsel) | [(Hscan & c & Hfind & Hsel) | (Hscan & Hfind & c & Hhd & Hone & Hsel)]].
  - pose proof (scan_some_inv _ _ _ _ Hscan) as (c & Hin & Hdone & _ & Hb).
    apply ScanBranch_fields in Hb. destruct Hb as (Hn & Hc & _).
    pose proof (calls_timestamp_ok _ _ Hwf Hin) as Hok.
    unfold isCompleted in Hdone. rewrite (isSet_wf _ Hok) in Hdone.
    eexists.
    exists (withDynamicMessage nc (map (viewOf status) (displayedMilestones nc))).
    split; [apply (computeNextCall_unfold _ _ _ Hsel)|].
    unfold withDynamicMessage. simpl. rewrite Hc. rewrite (isSet_wf _ Hok). rewrite Hdone.
    split; [reflexivity|]. split; [reflexivity|]. split; [discriminate|].
    intro Hall. exfalso. apply (calls_all_completed _ _ Hall Hin).
    destruct (completed c); [discriminate | reflexivity].
  - pose proof (findOpen_some_inv _ _ _ Hfind) as (Hin & Hdone & _).
    pose proof (calls_timestamp_ok _ _ Hwf Hin) as Hok.
    unfold isCompleted in Hdone. rewrite (isSet_wf _ Hok) in Hdone.
    eexists.
    exists (withDynamicMessage (asNextCall c) (map (viewOf status) (displayedMilestones (asNextCall c)))).
    split; [apply (computeNextCall_unfold _ _ _ Hsel)|].
    unfold withDynamicMessage. simpl. rewrite (isSet_wf _ Hok). rewrite Hdone.
    split; [reflexivity|]. split; [reflexivity|]. split; [discriminate|].
    intro Hall. exfalso. apply (calls_all_completed _ _ Hall Hin).
    destruct (completed c); [discriminate | reflexivity].
  - assert (Hin : In c (calls status)).
    { simpl in Hhd. inversion Hhd. left. reflexivity. }
    pose proof (calls_timestamp_ok _ _ Hwf Hin) as Hok.
    eexists.
    exists (withDynamicMessage (asNextCall c) (map (viewOf status) (displayedMilestones (asNextCall c)))).
    split; [apply (computeNextCall_unfold _ _ _ Hsel)|].
    unfold withDynamicMessage. simpl. rewrite (isSet_wf _ Hok).
    split; [reflexivity|]. split; [reflexivity|]. split; [auto|].
    intro Hall. pose proof (calls_all_completed _ _ Hall Hin) as Hne.
    split; [assumption|].
    destruct (completed c); [reflexivity | congruence].
Qed.

Lemma isBooked_only_by_last_fallback_witness :
  wf_status statusAllDone = true
  /\ exists d, computeNextCall (Some statusAllDone) [] = Return d
               /\ selectedNumber d = Some 1 /\ isBooked d = true.
Proof.
  split; [reflexivity|].
  destruct (isBooked_only_by_last_fallback statusAllDone [] eq_refl)
    as (d & nc & Hd & Hnc & _ & _ & Hall).
  exists d. split; [exact Hd|].
  assert (Hdone : allCompleted statusAllDone).
  { unfold allCompleted; simpl. repeat split; discriminate. }
  destruct (Hall Hdone) as [Hn Hb].
  split; [|exact Hb].
  unfold selectedNumber. rewrite Hnc. simpl. rewrite Hn. reflexivity.
Defined.

(** ** Progress percentage *)

Lemma completedMilestones_count (status : UserStatus) :
  completedMilestones status = milestonesTrueCount status.
Proof.
  unfold completedMilestones, milestonesTrueCount, MILESTONES, status_get.
  simpl.
  destruct (orientation status), (resumeRebuilding status), (resumeConfirmed status),
    (portfolioBuildingAndConfirmed status), (techDistributionAndExtension status),
    (cheatSheetBuiltOut status), (hasAppliedEnoughJobs status); reflexivity.
Qed.

Lemma milestonesTrueCount_le_7 (status : UserStatus) :
  (milestonesTrueCount status <= 7)%nat.
Proof.
  unfold milestonesTrueCount.
  destruct (orientation status), (resumeRebuilding status), (resumeConfirmed status),
    (portfolioBuildingAndConfirmed status), (techDistributionAndExtension status),
    (cheatSheetBuiltOut status), (hasAppliedEnoughJobs status); simpl; lia.
Qed.

Lemma b2n_implb (a b : bool) : implb a b = true -> (Nat.b2n a <= Nat.b2n b)%nat.
Proof. destruct a, b; simpl; intro H; try lia; discriminate. Qed.

Lemma milestonesTrueCount_mono (a b : UserStatus) :
  flagsLe a b = true -> (milestonesTrueCount a <= milestonesTrueCount b)%nat.
Proof.
  unfold flagsLe, milestonesTrueCount. intro H.
  repeat (apply andb_true_iff in H; let H' := fresh "H" in destruct H as [H H']).
  repeat match goal with
         | Hi : implb _ _ = true |- _ => apply b2n_implb in Hi
         end.
  lia.
Qed.

(** The eight possible percentages are ordered like the counts (checked on
    the doubles themselves). *)
Lemma percentage_table_mono :
  forallb (fun n =>
    forallb (fun m =>
      implb (n <=? m)%nat
            ((toNumber n / 7 * 100) <=? (toNumber m / 7 * 100))%float)
      (seq 0 8)) (seq 0 8) = true.
Proof. vm_compute. reflexivity. Qed.

Lemma percentage_mono (n m : nat) :
  (n <= m)%nat -> (m <= 7)%nat ->
  ((toNumber n / 7 * 100) <=? (toNumber m / 7 * 100))%float = true.
Proof.
  intros Hnm Hm.
  pose proof percentage_table_mono as T.
  rewrite forallb_forall in T.
  assert (Hn : In n (seq 0 8)) by (apply in_seq; lia).
  specialize (T n Hn). rewrite forallb_forall in T.
  assert (Hm' : In m (seq 0 8)) by (apply in_seq; lia).
  specialize (T m Hm').
  apply Nat.leb_le in Hnm. rewrite Hnm in T. exact T.
Qed.

Lemma computeProgress_count (status : UserStatus) :
  computeProgress status
  = (toNumber (milestonesTrueCount status) / 7 * 100)%float.
Proof.
  unfold computeProgress. rewrite completedMilestones_count. reflexivity.
Qed.

Lemma computeNextCall_returns (status : UserStatus) (scheduledCallNumbers : list Z) :
  exists d, computeNextCall (Some status) scheduledCallNumbers = Return d
            /\ progressPercentage d = computeProgress status.
Proof.
  destruct (selectNextCall_some status scheduledCallNumbers) as (nc & Hsel & _).
  eexists. split; [apply (computeNextCall_unfold _ _ _ Hsel) | reflexivity].
Qed.

(** C5: the derivation returns a percentage equal to the double
    [(k / 7) * 100], [k] being the number of true flags among the seven of
    [MILESTONES]; it therefore depends on nothing else (not on the stages,
    not on [finalReview], not on the scheduled numbers), a second run on
    the same input gives the same double, and turning flags from false to
    true never lowers it. *)
Theorem progress_counts_true_milestones
        (status : UserStatus) (scheduledCallNumbers : list Z) :
  exists d,
    computeNextCall (Some status) scheduledCallNumbers = Return d
    /\ progressPercentage d
       = (toNumber (milestonesTrueCount status) / 7 * 100)%float
    /\ (forall d2, computeNextCall (Some status) scheduledCallNumbers = Return d2 ->
                   progressPercentage d2 = progressPercentage d)
    /\ forall (status' : UserStatus) (scheduled' : list Z),
        flagsLe status status' = true ->
        exists d', computeNextCall (Some status') scheduled' = Return d'
                   /\ (progressPercentage d <=? progressPercentage d')%float = true.
Proof.
  destruct (computeNextCall_returns status scheduledCallNumbers) as (d & Hd & Hp).
  exists d. split; [exact Hd|].
  split; [rewrite Hp; apply computeProgress_count|].
  split.
  - intros d2 Hd2. rewrite Hd in Hd2. inversion Hd2. reflexivity.
  - intros status' scheduled' Hle.
    destruct (computeNextCall_returns status' scheduled') as (d' & Hd' & Hp').
    exists d'. split; [exact Hd'|].
    rewrite Hp, Hp', !computeProgress_count.
    apply percentage_mono.
    + apply milestonesTrueCount_mono. exact Hle.
    + apply milestonesTrueCount_le_7.
Qed.

Lemma progress_counts_true_milestones_witness :
  flagsLe statusFresh statusReadyFirst = true
  /\ exists d d',
      computeNextCall (Some statusFresh) [] = Return d
      /\ computeNextCall (Some statusReadyFirst) [1] = Return d'
      /\ (progressPercentage d <=? progressPercentage d')%float = true.
Proof.
  split; [reflexivity|].
  destruct (progress_counts_true_milestones statusFresh []) as (d & Hd & _ & _ & Hmono).
  destruct (Hmono statusReadyFirst [1] eq_refl) as (d' & Hd' & Hle).
  exists d, d'. auto.
Defined.

(** ** Stage 1 *)

(** One iteration of the loop on an open stage. *)
Lemma scan_open_head (status : UserStatus) (scheduledCallNumbers : list Z)
      (call : Call) (rest : list Call) :
  isCompleted call = false ->
  includes scheduledCallNumbers (number call) = false ->
  scan status scheduledCallNumbers (call :: rest)
  = if eligible call && (List.length (required call) =? 0)%nat
    then Some (asNextCall call)
    else if eligible call && allRequiredDone status call
         then Some (readyCall call)
         else if negb (eligible call) && (0 <? List.length (required call))%nat
              then Some (workingTowardCall call)
              else scan status scheduledCallNumbers rest.
Proof. intros Hdone Hsched. simpl. rewrite Hdone, Hsched. reflexivity. Qed.

(** One iteration of the loop on a stage that is completed or scheduled. *)
Lemma scan_skip_head (status : UserStatus) (scheduledCallNumbers : list Z)
      (call : Call) (rest : list Call) :
  isCompleted call || includes scheduledCallNumbers (number call) = true ->
  scan status scheduledCallNumbers (call :: rest)
  = scan status scheduledCallNumbers rest.
Proof.
  intro H. simpl. destruct (isCompleted call); [reflexivity|].
  simpl in H. rewrite H. reflexivity.
Qed.

(** C6: when stage 1 is not completed, 1 is not among the scheduled numbers
    and stage 1 is locked, the derivation returns stage 1, the checklist is
    the two stage-1 milestones in table order, each carrying the current
    value of its flag, and [isEligible] is false. *)
Theorem locked_first_stage_checklist
        (status : UserStatus) (scheduledCallNumbers : list Z) :
  isSet (firstMentorCallCompletedAt status) = false ->
  includes scheduledCallNumbers 1 = false ->
  eligibleForFirstMentorCall status = false ->
  exists d,
    computeNextCall (Some status) scheduledCallNumbers = Return d
    /\ selectedNumber d = Some 1
    /\ currentMilestones d
       = [ mkMilestoneView "orientation" "Orientation Complete" Rocket
                           (orientation status);
           mkMilestoneView "resumeRebuilding" "Resume Rebuilt" FileText
                           (resumeRebuilding status) ]
    /\ isEligible d = false.
Proof.
  intros Hdone Hsched Hel.
  eexists. split.
  - apply computeNextCall_unfold.
    unfold selectNextCall, calls.
    rewrite scan_open_head by assumption.
    cbn [eligible required]. rewrite Hel. reflexivity.
  - repeat split.
Qed.

Lemma locked_first_stage_checklist_witness :
  exists d,
    computeNextCall (Some statusFresh) [2; 3] = Return d
    /\ selectedNumber d = Some 1
    /\ currentMilestones d
       = [ mkMilestoneView "orientation" "Orientation Complete" Rocket false;
           mkMilestoneView "resumeRebuilding" "Resume Rebuilt" FileText false ]
    /\ isEligible d = false.
Proof.
  exact (locked_first_stage_checklist statusFresh [2; 3] eq_refl eq_refl eq_refl).
Defined.

(** C7: when stage 1 is not completed, 1 is not among the scheduled numbers,
    stage 1 is unlocked and both [orientation] and [resumeRebuilding] are
    true, the derivation returns stage 1 with an empty checklist and
    [isEligible] true. *)
Theorem ready_first_stage
        (status : UserStatus) (scheduledCallNumbers : list Z) :
  isSet (firstMentorCallCompletedAt status) = false ->
  includes scheduledCallNumbers 1 = false ->
  eligibleForFirstMentorCall status = true ->
  orientation status = true ->
  resumeRebuilding status = true ->
  exists d,
    computeNextCall (Some status) scheduledCallNumbers = Return d
    /\ selectedNumber d = Some 1
    /\ currentMilestones d = []
    /\ isEligible d = true.
Proof.
  intros Hdone Hsched Hel Hor Hre.
  eexists. split.
  - apply computeNextCall_unfold.
    unfold selectNextCall, calls.
    rewrite scan_open_head by assumption.
    unfold allRequiredDone, status_get.
    cbn. rewrite Hel, Hor, Hre. reflexivity.
  - repeat split.
Qed.

Lemma ready_first_stage_witness :
  exists d,
    computeNextCall (Some statusReadyFirst) [] = Return d
    /\ selectedNumber d = Some 1
    /\ currentMilestones d = []
    /\ isEligible d = true.
Proof.
  exact (ready_first_stage statusReadyFirst []
           eq_refl eq_refl eq_refl eq_refl eq_refl).
Defined.

(** ** Scheduled stages *)

(** C8, as stated, fails: with 1 scheduled, stage 1 not completed and
    stage 2 unlocked while [resumeConfirmed] is still false, stage 2 is the
    next stage that is neither completed nor scheduled, yet the loop passes
    over it and stops at stage 3. *)
Lemma scan_after_scheduled_passes_eligible_unmet_stage :
  isSet (firstMentorCallCompletedAt statusSecondEligibleUnmet) = false
  /\ includes [1] 1 = true
  /\ option_map number (findOpen [1] (calls statusSecondEligibleUnmet)) = Some 2
  /\ option_map nc_number
       (scan statusSecondEligibleUnmet [1] (calls statusSecondEligibleUnmet)) = Some 3.
Proof. repeat split; reflexivity. Qed.

(** C8 (amended): the loop never stops at a stage whose number is among the
    scheduled numbers; and when stage 1 is not completed but 1 is scheduled,
    the loop on the five stages is the loop on stages 2 to 5: it stops at
    the first of them that is neither completed nor scheduled and meets a
    selecting condition (unlocked with every required milestone true, or
    locked with at least one required milestone), so never at stage 1. *)
Theorem scheduled_first_stage_skipped
        (status : UserStatus) (scheduledCallNumbers : list Z) :
  (forall nc, scan status scheduledCallNumbers (calls status) = Some nc ->
              includes scheduledCallNumbers (nc_number nc) = false)
  /\ (isSet (firstMentorCallCompletedAt status) = false ->
      includes scheduledCallNumbers 1 = true ->
      scan status scheduledCallNumbers (calls status)
      = scan status scheduledCallNumbers (tl (calls status))
      /\ option_map nc_number (scan status scheduledCallNumbers (calls status))
         = option_map number
             (find (fun c => isOpen scheduledCallNumbers c && selectable status c)
                   (tl (calls status)))
      /\ forall nc, scan status scheduledCallNumbers (calls status) = Some nc ->
                    2 <= nc_number nc <= 5).
Proof.
  split.
  - intros nc Hscan.
    apply scan_some_inv in Hscan. destruct Hscan as (c & _ & _ & Hsched & Hb).
    apply ScanBranch_fields in Hb. destruct Hb as (Hn & _). rewrite Hn. exact Hsched.
  - intros Hdone Hsched.
    assert (Hskip : scan status scheduledCallNumbers (calls status)
                    = scan status scheduledCallNumbers (tl (calls status))).
    { unfold calls at 1. rewrite scan_skip_head; [reflexivity|].
      cbn [number]. rewrite Hsched. apply orb_true_r. }
    split; [exact Hskip|]. split.
    + rewrite Hskip. apply scan_number_find.
    + intros nc Hscan. rewrite Hskip in Hscan.
      apply scan_some_inv in Hscan. destruct Hscan as (c & Hin & _ & _ & Hb).
      apply ScanBranch_fields in Hb. destruct Hb as (Hn & _). rewrite Hn.
      apply (in_map number) in Hin. simpl in Hin. lia.
Qed.

Lemma scheduled_first_stage_skipped_witness :
  isSet (firstMentorCallCompletedAt statusFresh) = false
  /\ includes [1] 1 = true
  /\ option_map nc_number (scan statusFresh [1] (calls statusFresh)) = Some 2.
Proof.
  split; [reflexivity|]. split; [reflexivity|].
  destruct (scheduled_first_stage_skipped statusFresh [1]) as [_ H].
  destruct (H eq_refl eq_refl) as (_ & Hnum & _).
  rewrite Hnum. reflexivity.
Defined.

(** ** Ready to book *)

(** C9: whenever the derivation returns [isEligible] true, [isScheduled] and
    [isBooked] are both false, and [nextCall] came from the loop's second
    branch: a stage that is not completed, not scheduled, unlocked, with a
    non-empty list of required milestones that are all true. *)
Theorem ready_excludes_scheduled_and_booked
        (status : option UserStatus) (scheduledCallNumbers : list Z) :
  exists d,
    computeNextCall status scheduledCallNumbers = Return d
    /\ (isEligible d = true ->
        isScheduled d = false /\ isBooked d = false
        /\ exists st c,
            status = Some st /\ In c (calls st)
            /\ scan st scheduledCallNumbers (calls st) = Some (readyCall c)
            /\ selectedNumber d = Some (number c)
            /\ isCompleted c = false
            /\ includes scheduledCallNumbers (number c) = false
            /\ eligible c = true /\ required c <> []
            /\ allRequiredDone st c = true).
Proof.
  destruct status as [st|]; [|eexists; split; [reflexivity | discriminate]].
  destruct (selectNextCall_cases st scheduledCallNumbers)
    as [(nc & Hscan & Hsel) | [(_ & c & _ & Hsel) | (_ & _ & c & _ & _ & Hsel)]].
  - eexists. split; [apply (computeNextCall_unfold _ _ _ Hsel)|].
    pose proof (scan_some_inv _ _ _ _ Hscan) as (c & Hin & Hdone & Hsched & Hb).
    pose proof (calls_number_range _ _ Hin) as Hrange.
    unfold selectedNumber. cbn.
    destruct Hb as [Hel Hreq | Hel Hreq Hall | Hel Hreq]; cbn.
    + rewrite andb_false_r. discriminate.
    + intros _.
      assert (Hnz : (number c =? 0) = false) by (apply Z.eqb_neq; lia).
      rewrite Hnz, Hsched. split; [reflexivity|]. split; [exact Hdone|].
      exists st, c. repeat split; auto.
    + discriminate.
  - eexists. split; [apply (computeNextCall_unfold _ _ _ Hsel)|].
    cbn. rewrite andb_false_r. discriminate.
  - eexists. split; [apply (computeNextCall_unfold _ _ _ Hsel)|].
    cbn. rewrite andb_false_r. discriminate.
Qed.

Lemma ready_excludes_scheduled_and_booked_witness :
  exists d,
    computeNextCall (Some statusReadyFirst) [2] = Return d
    /\ isEligible d = true /\ isScheduled d = false /\ isBooked d = false.
Proof.
  destruct (ready_excludes_scheduled_and_booked (Some statusReadyFirst) [2])
    as (d & Hd & H).
  exists d. split; [exact Hd|].
  assert (He : isEligible d = true).
  { vm_compute in Hd. inversion Hd. reflexivity. }
  destruct (H He) as (Hs & Hb & _). auto.
Defined.

(** ** The booking guard *)

Lemma caught_no_post (message : option string) (n : Z) :
  ~ In (PostBookCall n) (caught message).
Proof.
  unfold caught. simpl. intros [H|[H|[H|[]]]]; discriminate.
Qed.

(** C10: with the values of one render, [handleBookCall] posts a booking
    only if [isEligible] is true, a next call is present (the posted number
    is its number) and [booking] is false; and when [nextMentorCall] is
    absent, [isEligible] is false or [booking] is true, it does nothing at
    all: no effect, hence no network request and [booking] unchanged. *)
Theorem booking_request_guarded (d : Derived) (booking : bool) (world : World) :
  (forall n : Z,
      In (PostBookCall n) (handleBookCall (nextMentorCall d) (isEligible d) booking world) ->
      isEligible d = true /\ booking = false
      /\ selectedNumber d = Some n)
  /\ (nextMentorCall d = None \/ isEligible d = false \/ booking = true ->
      handleBookCall (nextMentorCall d) (isEligible d) booking world = []
      /\ existsb isNetwork
           (handleBookCall (nextMentorCall d) (isEligible d) booking world) = false
      /\ bookingAfter booking
           (handleBookCall (nextMentorCall d) (isEligible d) booking world) = booking).
Proof.
  unfold handleBookCall, selectedNumber. split.
  - intros n.
    destruct (nextMentorCall d) as [nc|]; [|intros []].
    destruct (isEligible d), booking; simpl; intro H; try contradiction.
    destruct H as [H|[H|H]]; try discriminate.
    destruct (tokenAnswer world) as [message| |token].
    + exfalso. exact (caught_no_post _ _ H).
    + simpl in H. destruct H as [H|[H|[]]]; discriminate.
    + destruct (String.eqb token EmptyString).
      * simpl in H. destruct H as [H|[H|[]]]; discriminate.
      * destruct H as [H|H].
        -- inversion H. auto.
        -- exfalso.
           destruct (fetchAnswer world) as [message| |[message|e]];
             try exact (caught_no_post _ _ H);
             simpl in H; repeat (destruct H as [H|H]; try discriminate); exact H.
  - intros Hguard.
    assert (Hnil : match nextMentorCall d with
                   | Some _ => negb (isEligible d) || booking = true
                   | None => True
                   end).
    { destruct (nextMentorCall d); [|exact I].
      destruct Hguard as [H|[H|H]]; [discriminate | rewrite H; reflexivity |].
      rewrite H. apply orb_true_r. }
    destruct (nextMentorCall d); [rewrite Hnil|]; repeat split.
Qed.

Lemma booking_request_guarded_witness :
  exists d,
    computeNextCall (Some statusReadyFirst) [] = Return d
    /\ In (PostBookCall 1)
          (handleBookCall (nextMentorCall d) (isEligible d) false worldAccepting)
    /\ isEligible d = true
    /\ handleBookCall (nextMentorCall d) (isEligible d) true worldAccepting = [].
Proof.
  eexists. split; [vm_compute; reflexivity|].
  split; [right; right; left; reflexivity|].
  split.
  - refine (proj1 (proj1 (booking_request_guarded _ false worldAccepting) 1 _)).
    right; right; left; reflexivity.
  - refine (proj1 (proj2 (booking_request_guarded _ true worldAccepting) _)).
    right; right; reflexivity.
Defined.

(** ** The returned stage, fallbacks included *)

Lemma selectNextCall_origin (status : UserStatus) (scheduledCallNumbers : list Z) :
  exists nc c,
    selectNextCall status scheduledCallNumbers = Some nc
    /\ In c (calls status)
    /\ Origin status scheduledCallNumbers c nc.
Proof.
  destruct (selectNextCall_cases status scheduledCallNumbers)
    as [(nc & Hscan & Hsel) | [(Hscan & c & Hfind & Hsel) | (Hscan & Hfind & c & Hhd & Hone & Hsel)]].
  - pose proof (scan_some_inv _ _ _ _ Hscan) as (c & Hin & Hdone & Hsched & Hb).
    exists nc, c. repeat split; auto. apply FromScan; assumption.
  - pose proof (findOpen_some_inv _ _ _ Hfind) as (Hin & Hdone & Hsched).
    exists (asNextCall c), c. repeat split; auto. apply FromFind; auto.
  - exists (asNextCall c), c. repeat split; auto.
    + simpl in Hhd. inversion Hhd. left. reflexivity.
    + apply FromFirst; auto.
Qed.

Lemma Origin_fields (status : UserStatus) (scheduledCallNumbers : list Z)
      (c : Call) (nc : NextCall) :
  Origin status scheduledCallNumbers c nc ->
  nc_number nc = number c /\ nc_completed nc = completed c
  /\ nc_required nc = required c /\ nc_label nc = callLabel c
  /\ nc_getMessage nc = getMessage c.
Proof.
  intros [_ _ _ Hb | _ _ _ _ -> | _ _ _ _ ->]; try (repeat split; reflexivity).
  destruct Hb; repeat split; reflexivity.
Qed.

Lemma numberOrZero_stage (status : UserStatus) (c : Call) (nc : NextCall) :
  In c (calls status) -> nc_number nc = number c ->
  numberOrZero (Some nc) = number c.
Proof.
  intros Hin Hn. pose proof (calls_number_range _ _ Hin) as Hr.
  unfold numberOrZero. rewrite Hn.
  destruct (number c =? 0) eqn:E; [apply Z.eqb_eq in E; lia | reflexivity].
Qed.

(** A stage the loop could stop at is an open stage, so the first fallback
    finds one too. *)
Lemma findOpen_none_scan_none (status : UserStatus) (scheduledCallNumbers : list Z) :
  findOpen scheduledCallNumbers (calls status) = None ->
  scan status scheduledCallNumbers (calls status) = None.
Proof.
  intro Hfind.
  destruct (scan status scheduledCallNumbers (calls status)) as [nc|] eqn:Hscan;
    [|reflexivity].
  apply scan_some_inv in Hscan. destruct Hscan as (c & Hin & Hdone & Hsched & _).
  unfold findOpen in Hfind.
  pose proof (find_none _ _ Hfind c Hin) as Hc. cbn beta in Hc.
  rewrite Hdone, Hsched in Hc. discriminate.
Qed.

(** X1: The stage returned when some stage is still open, and when none is: if
    a stage is neither completed nor scheduled, the returned stage is
    neither flagged scheduled nor booked; if there is none, stage 1 is
    returned, flagged scheduled exactly when 1 is among the scheduled
    numbers and booked exactly when its completion time is set. *)
Theorem returned_stage_flags (status : UserStatus) (scheduledCallNumbers : list Z) :
  exists d,
    computeNextCall (Some status) scheduledCallNumbers = Return d
    /\ (findOpen scheduledCallNumbers (calls status) <> None ->
        isScheduled d = false /\ isBooked d = false)
    /\ (findOpen scheduledCallNumbers (calls status) = None ->
        selectedNumber d = Some 1
        /\ isScheduled d = includes scheduledCallNumbers 1
        /\ isBooked d = isSet (firstMentorCallCompletedAt status)).
Proof.
  destruct (selectNextCall_origin status scheduledCallNumbers)
    as (nc & c & Hsel & Hin & Ho).
  pose proof (Origin_fields _ _ _ _ Ho) as (Hn & Hc & _).
  pose proof (numberOrZero_stage _ _ _ Hin Hn) as Hz.
  eexists. split; [apply (computeNextCall_unfold _ _ _ Hsel)|].
  unfold selectedNumber. cbn [isScheduled isBooked nextMentorCall option_map
                                withDynamicMessage nc_number computeIsBooked].
  rewrite Hz, Hc, Hn.
  destruct Ho as [Hscan Hdone Hsched _ | Hscan Hfind Hdone Hsched _ | Hscan Hfind Hhd Hone _].
  - split; [intros _; auto|].
    intro Hnone. apply findOpen_none_scan_none in Hnone. congruence.
  - split; [intros _; auto|]. congruence.
  - split; [congruence|]. intros _.
    simpl in Hhd. inversion Hhd; subst c. repeat split.
Qed.

Lemma returned_stage_flags_witness :
  exists d,
    computeNextCall (Some statusAllDone) [1] = Return d
    /\ selectedNumber d = Some 1 /\ isScheduled d = true /\ isBooked d = true.
Proof.
  destruct (returned_stage_flags statusAllDone [1]) as (d & Hd & _ & H).
  destruct (H eq_refl) as (Hn & Hs & Hb).
  exists d. auto.
Defined.

(** When the loop stops nowhere, no open stage meets a selecting condition. *)
Lemma scan_none_unselectable (status : UserStatus) (scheduledCallNumbers : list Z)
      (c : Call) :
  scan status scheduledCallNumbers (calls status) = None ->
  In c (calls status) ->
  isOpen scheduledCallNumbers c = true ->
  selectable status c = false.
Proof.
  intros Hscan Hin Hopen.
  pose proof (scan_number_find status scheduledCallNumbers (calls status)) as Hf.
  rewrite Hscan in Hf.
  destruct (find (fun c0 => isOpen scheduledCallNumbers c0 && selectable status c0)
                 (calls status)) as [x|] eqn:Hfind; [discriminate Hf|].
  pose proof (find_none _ _ Hfind c Hin) as Hc. cbn beta in Hc.
  rewrite Hopen in Hc. exact Hc.
Qed.

(** X2: The first fallback: when the loop stops at no stage although one is
    open, the first open stage is returned with its whole list of required
    milestones as the checklist and [isEligible] false, whatever its own
    [eligible] flag; that stage meets no selecting condition. *)
Theorem passed_over_stage_returned
        (status : UserStatus) (scheduledCallNumbers : list Z) (c : Call) :
  scan status scheduledCallNumbers (calls status) = None ->
  findOpen scheduledCallNumbers (calls status) = Some c ->
  selectable status c = false
  /\ exists d,
      computeNextCall (Some status) scheduledCallNumbers = Return d
      /\ selectedNumber d = Some (number c)
      /\ currentMilestones d = map (viewOf status) (required c)
      /\ isEligible d = false
      /\ isScheduled d = false /\ isBooked d = false.
Proof.
  intros Hscan Hfind.
  pose proof (findOpen_some_inv _ _ _ Hfind) as (Hin & Hdone & Hsched).
  split.
  - apply (scan_none_unselectable _ _ _ Hscan Hin).
    unfold isOpen. rewrite Hdone, Hsched. reflexivity.
  - assert (Hsel : selectNextCall status scheduledCallNumbers = Some (asNextCall c)).
    { unfold selectNextCall. rewrite Hscan, Hfind. reflexivity. }
    eexists. split; [apply (computeNextCall_unfold _ _ _ Hsel)|].
    unfold selectedNumber.
    cbn [isScheduled isBooked isEligible currentMilestones nextMentorCall option_map
         withDynamicMessage nc_number computeIsBooked computeIsEligible
         displayedMilestones requiredMilestones asNextCall nc_required
         nc_completed nc_eligible].
    rewrite (numberOrZero_stage status c (asNextCall c) Hin eq_refl).
    rewrite Hsched. fold (isCompleted c). rewrite Hdone.
    rewrite andb_false_r. repeat split.
Qed.

Lemma passed_over_stage_returned_witness :
  exists d,
    computeNextCall (Some statusUnlockedEarly) [] = Return d
    /\ selectedNumber d = Some 1
    /\ currentMilestones d
       = [ mkMilestoneView "orientation" "Orientation Complete" Rocket false;
           mkMilestoneView "resumeRebuilding" "Resume Rebuilt" FileText false ]
    /\ isEligible d = false.
Proof.
  destruct (passed_over_stage_returned statusUnlockedEarly [] _ eq_refl eq_refl)
    as (_ & d & Hd & Hn & Hm & He & _).
  exists d. auto.
Defined.

Lemma calls_required_nil (status : UserStatus) (c : Call) :
  In c (calls status) -> (required c = [] <-> number c = 5).
Proof.
  intro Hin. simpl in Hin.
  repeat (destruct Hin as [<-|Hin];
          [simpl; split; intro H; first [discriminate H | reflexivity]|]).
  contradiction.
Qed.

Lemma map_viewOf_nil (status : UserStatus) (ms : list Milestone) :
  map (viewOf status) ms = [] <-> ms = [].
Proof. destruct ms; simpl; split; intro H; congruence. Qed.

(** X3: The checklist: it is either empty or the whole list of required
    milestones of the returned stage, and it is empty exactly when
    [isEligible] is true or the returned stage is stage 5. *)
Theorem checklist_empty_iff (status : UserStatus) (scheduledCallNumbers : list Z) :
  exists d nc,
    computeNextCall (Some status) scheduledCallNumbers = Return d
    /\ nextMentorCall d = Some nc
    /\ (currentMilestones d = []
        \/ currentMilestones d = map (viewOf status) (nc_required nc))
    /\ (currentMilestones d = []
        <-> isEligible d = true \/ nc_number nc = 5).
Proof.
  destruct (selectNextCall_origin status scheduledCallNumbers)
    as (nc & c & Hsel & Hin & Ho).
  pose proof (calls_required_nil _ _ Hin) as H5.
  eexists.
  exists (withDynamicMessage nc (map (viewOf status) (displayedMilestones nc))).
  split; [apply (computeNextCall_unfold _ _ _ Hsel)|].
  split; [reflexivity|].
  cbn [isEligible currentMilestones withDynamicMessage nc_number nc_required
       computeIsEligible].
  assert (Hfall : forall k : Call,
             In k (calls status) -> (required k = [] <-> number k = 5) ->
             (map (viewOf status) (displayedMilestones (asNextCall k)) = []
              \/ map (viewOf status) (displayedMilestones (asNextCall k))
                 = map (viewOf status) (nc_required (asNextCall k)))
             /\ (map (viewOf status) (displayedMilestones (asNextCall k)) = []
                 <-> nc_eligible (asNextCall k)
                     && match requiredMilestones (asNextCall k) with
                        | Some ms => (List.length ms =? 0)%nat
                        | None => false
                        end = true \/ nc_number (asNextCall k) = 5)).
  { intros k _ Hk. cbn. split; [right; reflexivity|].
    rewrite andb_false_r, map_viewOf_nil, Hk. intuition discriminate. }
  destruct Ho as [_ _ _ Hb | _ _ _ _ -> | _ _ _ _ ->]; try (apply Hfall; assumption).
  destruct Hb as [Hel Hreq | Hel Hreq Hall | Hel Hreq]; cbn.
  - apply Hfall; assumption.
  - rewrite Hel. split; [left; reflexivity|]. split; auto.
  - split; [right; reflexivity|].
    rewrite map_viewOf_nil, H5. intuition discriminate.
Qed.

(** ** The rendered card *)

Lemma origin_booked (status : UserStatus) (scheduledCallNumbers : list Z)
      (c : Call) (nc : NextCall) :
  Origin status scheduledCallNumbers c nc ->
  computeIsBooked (Some nc) = true ->
  number c = 1 /\ findOpen scheduledCallNumbers (calls status) = None.
Proof.
  intros Ho Hb. pose proof (Origin_fields _ _ _ _ Ho) as (_ & Hc & _).
  simpl in Hb. rewrite Hc in Hb. fold (isCompleted c) in Hb.
  destruct Ho as [_ Hdone _ _ | _ _ Hdone _ _ | _ Hfind _ Hone _];
    try congruence; auto.
Qed.

Lemma origin_eligible (status : UserStatus) (scheduledCallNumbers : list Z)
      (c : Call) (nc : NextCall) :
  Origin status scheduledCallNumbers c nc ->
  computeIsEligible (Some nc) = true ->
  nc = readyCall c /\ required c <> [] /\ allRequiredDone status c = true
  /\ isCompleted c = false /\ includes scheduledCallNumbers (number c) = false.
Proof.
  intros Ho He.
  destruct Ho as [_ Hdone Hsched Hb | _ _ _ _ -> | _ _ _ _ ->];
    try (cbn in He; rewrite andb_false_r in He; discriminate).
  destruct Hb as [Hel Hreq | Hel Hreq Hall | Hel Hreq];
    try (cbn in He; rewrite ?andb_false_r in He; discriminate).
  repeat split; assumption.
Qed.

Lemma origin_checklist (status : UserStatus) (scheduledCallNumbers : list Z)
      (c : Call) (nc : NextCall) :
  In c (calls status) ->
  Origin status scheduledCallNumbers c nc ->
  (displayedMilestones nc = [] <-> computeIsEligible (Some nc) = true \/ number c = 5).
Proof.
  intros Hin Ho. pose proof (calls_required_nil _ _ Hin) as H5.
  assert (Hfall : displayedMilestones (asNextCall c) = []
                  <-> computeIsEligible (Some (asNextCall c)) = true \/ number c = 5).
  { cbn. rewrite andb_false_r, H5. intuition discriminate. }
  destruct Ho as [_ _ _ Hb | _ _ _ _ -> | _ _ _ _ ->]; try exact Hfall.
  destruct Hb as [Hel Hreq | Hel Hreq Hall | Hel Hreq]; try exact Hfall; cbn.
  - rewrite Hel. intuition.
  - rewrite H5. intuition discriminate.
Qed.

(** The component on a loaded status, in terms of [nextCall]. *)
Lemma UserProgress_loaded (scheduledCalls : list ScheduledCall)
      (status : UserStatus) (booking : bool) (nc : NextCall) :
  selectNextCall status (map callNumber scheduledCalls) = Some nc ->
  exists d,
    computeNextCall (Some status) (map callNumber scheduledCalls) = Return d
    /\ nextMentorCall d
       = Some (withDynamicMessage nc (map (viewOf status) (displayedMilestones nc)))
    /\ currentMilestones d = map (viewOf status) (displayedMilestones nc)
    /\ isEligible d = computeIsEligible (Some nc)
    /\ isBooked d = computeIsBooked (Some nc)
    /\ isScheduled d = includes (map callNumber scheduledCalls) (numberOrZero (Some nc))
    /\ UserProgress scheduledCalls (mkViewState (Some status) false booking)
       = Return (Shown (renderCard scheduledCalls
                          (withDynamicMessage nc
                             (map (viewOf status) (displayedMilestones nc))) d)).
Proof.
  intro Hsel. eexists.
  split; [apply (computeNextCall_unfold _ _ _ Hsel)|].
  repeat split.
  unfold UserProgress. cbn [vs_status vs_loading].
  rewrite (computeNextCall_unfold _ _ _ Hsel). reflexivity.
Qed.

Lemma bodyBlocks_renderCard (scheduledCalls : list ScheduledCall) (nc : NextCall)
      (d : Derived) :
  bodyBlocks (renderCard scheduledCalls nc d)
  = if isBooked d then 1%nat
    else if isEligible d then 1%nat
         else if (0 <? List.length (currentMilestones d))%nat then 1%nat else 0%nat.
Proof.
  unfold bodyBlocks, renderCard. cbn [checklistBlock readyBlock bookedBlock].
  destruct (isBooked d), (isEligible d),
    (0 <? List.length (currentMilestones d))%nat; reflexivity.
Qed.

(** X4: With a status loaded and [loading] false the component always renders
    the card (never nothing).  The card shows exactly one of the three body
    blocks (checklist, ready, booked), except when the returned stage is
    stage 5: then it shows none of them and neither badge. *)
Theorem loaded_card_body_blocks
        (scheduledCalls : list ScheduledCall) (status : UserStatus) (booking : bool) :
  exists d nc card,
    computeNextCall (Some status) (map callNumber scheduledCalls) = Return d
    /\ nextMentorCall d = Some nc
    /\ UserProgress scheduledCalls (mkViewState (Some status) false booking)
       = Return (Shown card)
    /\ (nc_number nc = 5 ->
        bodyBlocks card = 0%nat
        /\ completedBadge card = false /\ readyBadge card = false)
    /\ (nc_number nc <> 5 -> bodyBlocks card = 1%nat).
Proof.
  destruct (selectNextCall_origin status (map callNumber scheduledCalls))
    as (nc & c & Hsel & Hin & Ho).
  destruct (UserProgress_loaded scheduledCalls status booking nc Hsel)
    as (d & Hd & Hnc & Hcm & He & Hb & _ & Hview).
  pose proof (Origin_fields _ _ _ _ Ho) as (Hn & _).
  pose proof (origin_checklist _ _ _ _ Hin Ho) as Hlist.
  exists d. eexists. eexists.
  split; [exact Hd|]. split; [exact Hnc|]. split; [exact Hview|].
  rewrite bodyBlocks_renderCard.
  cbn [completedBadge readyBadge renderCard withDynamicMessage nc_number].
  rewrite Hcm, He, Hb, Hn, length_map.
  destruct (computeIsBooked (Some nc)) eqn:Ebook.
  { pose proof (origin_booked _ _ _ _ Ho Ebook) as (Hone & _).
    split; [intro H5; rewrite Hone in H5; discriminate | reflexivity]. }
  destruct (computeIsEligible (Some nc)) eqn:Eel.
  { pose proof (origin_eligible _ _ _ _ Ho Eel) as (_ & Hreq & _).
    split; [|reflexivity].
    intro H5. exfalso. apply Hreq. apply (calls_required_nil _ _ Hin). exact H5. }
  destruct (displayedMilestones nc) as [|m ms] eqn:Edisp.
  - assert (H5 : number c = 5).
    { destruct (proj1 Hlist eq_refl) as [H|H]; [discriminate | exact H]. }
    split; [intros _; repeat split | intro Hne; contradiction].
  - split; [|reflexivity].
    intro H5. assert (Hnil : m :: ms = []) by (apply Hlist; right; exact H5).
    discriminate.
Qed.

Lemma loaded_card_body_blocks_witness :
  exists card,
    UserProgress [] (mkViewState (Some statusFinalUnlocked) false false)
    = Return (Shown card)
    /\ bodyBlocks card = 0%nat /\ completedBadge card = false
    /\ readyBadge card = false.
Proof.
  destruct (loaded_card_body_blocks [] statusFinalUnlocked false)
    as (d & nc & card & Hd & Hnc & Hview & H5 & _).
  exists card. split; [exact Hview|].
  apply H5.
  vm_compute in Hd. inversion Hd; subst d.
  cbn in Hnc. inversion Hnc. reflexivity.
Defined.

(** For the four stages with a checklist the message built by [getMessage]
    is, character for character, the template the card would fall back to. *)
Lemma calls_message_is_template (status : UserStatus) (c : Call)
      (milestones : list MilestoneView) :
  In c (calls status) -> number c <> 5 ->
  getMessage c milestones = fallbackMessage (callLabel c) milestones.
Proof.
  intros Hin Hne. simpl in Hin.
  repeat (destruct Hin as [<-|Hin]; [first [reflexivity | exfalso; apply Hne; reflexivity]|]).
  contradiction.
Qed.

Lemma fallbackMessage_starts (callLabel : string) (milestones : list MilestoneView) :
  exists rest, fallbackMessage callLabel milestones = String "B" rest.
Proof. unfold fallbackMessage. simpl. eexists. reflexivity. Qed.

(** X5: The paragraph of the checklist block: whenever the block is shown, its
    items are [currentMilestones], its text is the stage's [dynamicMessage],
    which is the same text as the template after [||], and it is never the
    congratulation message of stage 5. *)
Theorem checklist_text_is_dynamic_message
        (scheduledCalls : list ScheduledCall) (status : UserStatus) (booking : bool) :
  exists d nc card,
    computeNextCall (Some status) (map callNumber scheduledCalls) = Return d
    /\ nextMentorCall d = Some nc
    /\ UserProgress scheduledCalls (mkViewState (Some status) false booking)
       = Return (Shown card)
    /\ forall text items,
        checklistBlock card = Some (text, items) ->
        items = currentMilestones d /\ items <> []
        /\ dynamicMessage nc = Some text
        /\ text = fallbackMessage (nc_label nc) items
        /\ text <> finalMessage.
Proof.
  destruct (selectNextCall_origin status (map callNumber scheduledCalls))
    as (nc & c & Hsel & Hin & Ho).
  destruct (UserProgress_loaded scheduledCalls status booking nc Hsel)
    as (d & Hd & Hnc & Hcm & He & Hb & _ & Hview).
  pose proof (Origin_fields _ _ _ _ Ho) as (Hn & _ & _ & Hl & Hg).
  pose proof (origin_checklist _ _ _ _ Hin Ho) as Hlist.
  exists d. eexists. eexists.
  split; [exact Hd|]. split; [exact Hnc|]. split; [exact Hview|].
  intros text items.
  cbn [checklistBlock renderCard withDynamicMessage dynamicMessage nc_label].
  rewrite He.
  destruct (isBooked d); [discriminate|].
  destruct (computeIsEligible (Some nc)) eqn:Eel; [discriminate|].
  destruct (0 <? List.length (currentMilestones d))%nat eqn:Elen; [|discriminate].
  cbn [negb andb]. intro H. inversion H as [[Htext Hitems]]. clear H.
  assert (Hne : currentMilestones d <> []).
  { intro Hnil. rewrite Hnil in Elen. discriminate. }
  assert (H5 : number c <> 5).
  { intro H5. apply Hne. rewrite Hcm. apply map_viewOf_nil. apply Hlist. auto. }
  rewrite Hg, Hl, <- Hcm.
  rewrite (calls_message_is_template status c (currentMilestones d) Hin H5).
  destruct (fallbackMessage_starts (callLabel c) (currentMilestones d)) as (rest & Hrest).
  assert (Hstay : orElse (fallbackMessage (callLabel c) (currentMilestones d))
                         (fallbackMessage (callLabel c) (currentMilestones d))
                  = fallbackMessage (callLabel c) (currentMilestones d)).
  { unfold orElse. rewrite Hrest. reflexivity. }
  rewrite Hstay.
  repeat split; auto.
  rewrite Hrest. unfold finalMessage. discriminate.
Qed.

Lemma checklist_text_is_dynamic_message_witness :
  exists card text items,
    UserProgress [] (mkViewState (Some statusFresh) false false) = Return (Shown card)
    /\ checklistBlock card = Some (text, items)
    /\ text = fallbackMessage "First Mentor Call" items
    /\ text <> finalMessage.
Proof.
  destruct (checklist_text_is_dynamic_message [] statusFresh false)
    as (d & nc & card & Hd & Hnc & Hview & H).
  assert (Hcard : exists text items, checklistBlock card = Some (text, items)
                                     /\ nc_label nc = "First Mentor Call").
  { vm_compute in Hd. inversion Hd; subst d. cbn in Hnc. inversion Hnc; subst nc.
    vm_compute in Hview. inversion Hview; subst card.
    eexists. eexists. split; reflexivity. }
  destruct Hcard as (text & items & Hblock & Hlabel).
  destruct (H text items Hblock) as (_ & _ & _ & Htext & Hfinal).
  exists card, text, items. rewrite <- Hlabel. auto.
Defined.

(** X6: The ready state: [isEligible] alone decides both the Ready badge and
    the ready block; the further tests [!isBooked] and [!isScheduled] never
    change the outcome, and with the ready block neither the checklist nor
    the booked block nor the Completed badge is shown. *)
Theorem ready_badge_follows_isEligible
        (scheduledCalls : list ScheduledCall) (status : UserStatus) (booking : bool) :
  exists d card,
    computeNextCall (Some status) (map callNumber scheduledCalls) = Return d
    /\ UserProgress scheduledCalls (mkViewState (Some status) false booking)
       = Return (Shown card)
    /\ readyBadge card = isEligible d
    /\ shown (readyBlock card) = Nat.b2n (isEligible d)
    /\ (isEligible d = true ->
        checklistBlock card = None /\ bookedBlock card = None
        /\ completedBadge card = false).
Proof.
  destruct (selectNextCall_origin status (map callNumber scheduledCalls))
    as (nc & c & Hsel & Hin & Ho).
  destruct (UserProgress_loaded scheduledCalls status booking nc Hsel)
    as (d & Hd & Hnc & Hcm & He & Hb & Hs & Hview).
  pose proof (Origin_fields _ _ _ _ Ho) as (Hn & Hc & _).
  exists d. eexists.
  split; [exact Hd|]. split; [exact Hview|].
  cbn [readyBadge readyBlock checklistBlock bookedBlock completedBadge renderCard].
  destruct (isEligible d) eqn:Eel.
  - symmetry in He.
    pose proof (origin_eligible _ _ _ _ Ho He) as (_ & _ & _ & Hdone & Hsched).
    assert (Hbook : isBooked d = false).
    { rewrite Hb. simpl. rewrite Hc. exact Hdone. }
    assert (Hsch : isScheduled d = false).
    { rewrite Hs, (numberOrZero_stage _ _ _ Hin Hn). exact Hsched. }
    rewrite Hbook, Hsch. repeat split.
  - split; [reflexivity|]. split; [reflexivity|]. discriminate.
Qed.

Lemma ready_badge_follows_isEligible_witness :
  exists card,
    UserProgress [] (mkViewState (Some statusReadyFirst) false false)
    = Return (Shown card)
    /\ readyBadge card = true /\ checklistBlock card = None
    /\ bookedBlock card = None.
Proof.
  destruct (ready_badge_follows_isEligible [] statusReadyFirst false)
    as (d & card & Hd & Hview & Hbadge & _ & H).
  assert (He : isEligible d = true).
  { vm_compute in Hd. inversion Hd. reflexivity. }
  destruct (H He) as (Hc & Hb & _).
  exists card. rewrite Hbadge. auto.
Defined.

(** ** Loading and booking runs *)

Lemma applyLoad_loadStatus (state : ViewState) (token : TokenAnswer)
      (answer : StatusAnswer) :
  applyLoad state (loadStatus token answer)
  = mkViewState
      (match token, answer with
       | TokenValue t, StatusOk (Return s) =>
           if String.eqb t EmptyString then vs_status state else s
       | _, _ => vs_status state
       end)
      false (vs_booking state).
Proof.
  destruct state as [s0 l0 b0].
  destruct token as [m| |t]; try reflexivity.
  unfold loadStatus, applyLoad.
  destruct (String.eqb t EmptyString); [destruct answer as [|[s|e]|]; reflexivity|].
  destruct answer as [|[s|e]|]; reflexivity.
Qed.

Lemma loadStatus_fetch (token : TokenAnswer) (answer : StatusAnswer) :
  In FetchStatus (loadStatus token answer) ->
  exists t, token = TokenValue t /\ t <> EmptyString.
Proof.
  unfold loadStatus. destruct token as [m| |t].
  - intro H. simpl in H. repeat (destruct H as [H|H]; try discriminate). contradiction.
  - intro H. simpl in H. repeat (destruct H as [H|H]; try discriminate). contradiction.
  - destruct (String.eqb t EmptyString) eqn:Et.
    + intro H. simpl in H. repeat (destruct H as [H|H]; try discriminate). contradiction.
    + intros _. exists t. split; [reflexivity|]. apply String.eqb_neq. exact Et.
Qed.

(** X7: [loadStatus] in every outcome: [loading] ends false and [booking] is
    untouched; the status request is sent only with a non-empty token; the
    stored status is replaced only by the [userStatus] of an ok response
    whose body could be read (an absent [userStatus] then clears it), and
    every failure keeps the previous status. *)
Theorem loadStatus_outcome (state : ViewState) (token : TokenAnswer)
        (answer : StatusAnswer) :
  vs_loading (applyLoad state (loadStatus token answer)) = false
  /\ vs_booking (applyLoad state (loadStatus token answer)) = vs_booking state
  /\ (In FetchStatus (loadStatus token answer) ->
      exists t, token = TokenValue t /\ t <> EmptyString)
  /\ (vs_status (applyLoad state (loadStatus token answer)) <> vs_status state ->
      exists t s, token = TokenValue t /\ t <> EmptyString
                  /\ answer = StatusOk (Return s))
  /\ (forall t s, token = TokenValue t -> t <> EmptyString ->
                  answer = StatusOk (Return s) ->
                  vs_status (applyLoad state (loadStatus token answer)) = s).
Proof.
  rewrite applyLoad_loadStatus. cbn [vs_loading vs_booking vs_status].
  split; [reflexivity|]. split; [reflexivity|].
  split; [apply loadStatus_fetch|]. split.
  - destruct token as [m| |t]; try (intro H; exfalso; apply H; reflexivity).
    destruct answer as [|[s|e]|]; try (intro H; exfalso; apply H; reflexivity).
    destruct (String.eqb t EmptyString) eqn:Et;
      [intro H; exfalso; apply H; reflexivity|].
    intros _. exists t, s. repeat split. apply String.eqb_neq. exact Et.
  - intros t s -> Hne ->.
    apply String.eqb_neq in Hne. rewrite Hne. reflexivity.
Qed.

Lemma loadStatus_outcome_witness :
  vs_status (applyLoad (mkViewState None true false)
                       (loadStatus (TokenValue "id-token")
                                   (StatusOk (Return (Some statusFresh)))))
  = Some statusFresh.
Proof.
  refine (proj2 (proj2 (proj2 (proj2
            (loadStatus_outcome (mkViewState None true false)
                                (TokenValue "id-token")
                                (StatusOk (Return (Some statusFresh)))))))
            "id-token" (Some statusFresh) eq_refl _ eq_refl).
  discriminate.
Defined.

(** X8: A run of [handleBookCall] that passes the guard: it starts by setting
    [booking], ends by clearing it (also after a rejection or a missing
    token), shows exactly one toast and sends at most one booking request. *)
Theorem booking_run_shape (d : Derived) (nc : NextCall) (world : World) :
  nextMentorCall d = Some nc -> isEligible d = true ->
  hd_error (handleBookCall (nextMentorCall d) (isEligible d) false world)
  = Some (SetBooking true)
  /\ last (handleBookCall (nextMentorCall d) (isEligible d) false world) GetIdToken
     = SetBooking false
  /\ bookingAfter false (handleBookCall (nextMentorCall d) (isEligible d) false world)
     = false
  /\ List.length (filter isToast
                    (handleBookCall (nextMentorCall d) (isEligible d) false world)) = 1%nat
  /\ (List.length (filter isPost
                     (handleBookCall (nextMentorCall d) (isEligible d) false world)) <= 1)%nat.
Proof.
  intros -> ->. unfold handleBookCall, caught. cbn [negb orb].
  destruct world as [tok fetch]. cbn [tokenAnswer fetchAnswer].
  destruct tok as [m| |t]; [repeat split; auto .. |].
  destruct (String.eqb t EmptyString); [repeat split; auto|].
  destruct fetch as [m| |[m|e]]; repeat split; auto.
Qed.

Lemma booking_run_shape_witness :
  exists d,
    computeNextCall (Some statusReadyFirst) [] = Return d
    /\ bookingAfter false
         (handleBookCall (nextMentorCall d) (isEligible d) false worldAccepting) = false
    /\ List.length (filter isToast
                      (handleBookCall (nextMentorCall d) (isEligible d) false
                                      worldAccepting)) = 1%nat.
Proof.
  assert (H : exists d nc, computeNextCall (Some statusReadyFirst) [] = Return d
                           /\ nextMentorCall d = Some nc /\ isEligible d = true).
  { eexists. eexists. split; [vm_compute; reflexivity|]. split; reflexivity. }
  destruct H as (d & nc & Hd & Hnc & He).
  exists d. split; [exact Hd|].
  destruct (booking_run_shape d nc worldAccepting Hnc He) as (_ & _ & Hb & Ht & _).
  split; [exact Hb | exact Ht].
Defined.

(** X9: The status is reloaded exactly when the success toast is shown, and
    that happens exactly when the guard passed, a non-empty token was
    obtained and the booking request got an ok response; so never without
    a booking request before it. *)
Theorem reload_iff_booking_accepted (d : Derived) (booking : bool) (world : World) :
  (In LoadStatus (handleBookCall (nextMentorCall d) (isEligible d) booking world)
   <-> In (ToastSuccess "Call booked successfully!")
          (handleBookCall (nextMentorCall d) (isEligible d) booking world))
  /\ (In LoadStatus (handleBookCall (nextMentorCall d) (isEligible d) booking world)
      <-> exists nc t,
          nextMentorCall d = Some nc /\ isEligible d = true /\ booking = false
          /\ tokenAnswer world = TokenValue t /\ t <> EmptyString
          /\ fetchAnswer world = ResponseOk
          /\ In (PostBookCall (nc_number nc))
                (handleBookCall (nextMentorCall d) (isEligible d) booking world)).
Proof.
  unfold handleBookCall, caught.
  destruct world as [tok fetch]. cbn [tokenAnswer fetchAnswer].
  destruct (nextMentorCall d) as [nc|];
    [destruct (isEligible d), booking; cbn [negb orb]|].
  1, 3, 4, 5:
    split; [split; intros [] | split; [intros [] |]];
    intros (nc0 & t0 & H1 & H2 & H3 & _); discriminate.
  destruct tok as [m| |t].
  1, 2: split; [split|split];
        try (intro H; simpl in H;
             repeat (destruct H as [H|H]; try discriminate); contradiction);
        intros (nc0 & t0 & _ & _ & _ & H4 & _); discriminate.
  destruct (String.eqb t EmptyString) eqn:Et.
  { apply String.eqb_eq in Et.
    split; [split|split];
      try (intro H; simpl in H;
           repeat (destruct H as [H|H]; try discriminate); contradiction).
    intros (nc0 & t0 & _ & _ & _ & H4 & H5 & _).
    inversion H4; subst. contradiction. }
  apply String.eqb_neq in Et.
  destruct fetch as [m| |[m|e]].
  2: { split; [split; intro; simpl; tauto|].
       split; [|intro; simpl; tauto].
       intros _. exists nc, t. repeat split; auto. simpl. tauto. }
  all: split; [split|split];
    try (intro H; simpl in H;
         repeat (destruct H as [H|H]; try discriminate); contradiction);
    intros (nc0 & t0 & _ & _ & _ & _ & _ & H6 & _); discriminate.
Qed.

(** ** The scheduled calls built by the page *)

Lemma includes_In (numbers : list Z) (n : Z) :
  includes numbers n = true <-> In n numbers.
Proof.
  unfold includes. rewrite existsb_exists. split.
  - intros (x & Hin & Heq). apply Z.eqb_eq in Heq. subst. exact Hin.
  - intro Hin. exists n. split; [exact Hin | apply Z.eqb_refl].
Qed.

Lemma scheduledEntry_numbers (status : StatusJson) (i n : Z) :
  In n (map callNumber (scheduledEntry status i))
  <-> n = i /\ hasScheduledAt status i = true /\ hasCompletedAt status i = false.
Proof.
  unfold scheduledEntry, hasScheduledAt, hasCompletedAt.
  destruct (truthy (json_get status (ordinalOf i ++ "MentorCallScheduledAt")));
    destruct (truthy (json_get status (ordinalOf i ++ "MentorCallCompletedAt")));
    simpl; intuition congruence.
Qed.

Lemma collect_numbers (status : StatusJson) (range : list Z) (n : Z) :
  In n (map callNumber (flat_map (scheduledEntry status) range))
  <-> In n range /\ hasScheduledAt status n = true /\ hasCompletedAt status n = false.
Proof.
  induction range as [|i rest IH]; simpl; [tauto|].
  rewrite map_app, in_app_iff, IH, scheduledEntry_numbers.
  split.
  - intros [(-> & H1 & H2) | (Hin & H1 & H2)]; auto.
  - intros ([-> | Hin] & H1 & H2); auto.
Qed.

Lemma collect_NoDup (status : StatusJson) (range : list Z) :
  NoDup range -> NoDup (map callNumber (flat_map (scheduledEntry status) range)).
Proof.
  induction range as [|i rest IH]; simpl; intro Hnd; [constructor|].
  inversion Hnd as [|? ? Hnotin Hrest]; subst.
  rewrite map_app.
  unfold scheduledEntry at 1.
  destruct (truthy (json_get status (ordinalOf i ++ "MentorCallScheduledAt"))
            && negb (truthy (json_get status (ordinalOf i ++ "MentorCallCompletedAt"))));
    simpl; [|auto].
  constructor; [|auto].
  intro Hin. apply collect_numbers in Hin. tauto.
Qed.

(** X10: The list [loadData] builds before sorting: call [n] is in it exactly
    when [n] is one of 1..5, its scheduled time is set and its completion
    time is not; no number occurs twice; every entry carries a set
    scheduled time. *)
Theorem collectScheduled_numbers (status : StatusJson) :
  (forall n : Z,
      In n (map callNumber (collectScheduled status))
      <-> 1 <= n <= 5 /\ hasScheduledAt status n = true
          /\ hasCompletedAt status n = false)
  /\ NoDup (map callNumber (collectScheduled status))
  /\ (List.length (collectScheduled status) <= 5)%nat
  /\ forall sc, In sc (collectScheduled status) -> truthy (scheduledAt sc) = true.
Proof.
  unfold collectScheduled. split; [|split; [|split]].
  - intro n. rewrite collect_numbers. simpl. split.
    + intros (Hin & H1 & H2). repeat split; auto; lia.
    + intros (Hr & H1 & H2). repeat split; auto. lia.
  - apply collect_NoDup. repeat constructor; simpl; intuition discriminate.
  - simpl. rewrite !length_app. unfold scheduledEntry.
    repeat match goal with
           | |- context [if ?b then _ else _] => destruct b
           end; simpl; lia.
  - intros sc Hin. apply in_flat_map in Hin. destruct Hin as (i & _ & Hin).
    unfold scheduledEntry in Hin.
    destruct (truthy (json_get status (ordinalOf i ++ "MentorCallScheduledAt"))) eqn:Hs;
      simpl in Hin; [|contradiction].
    destruct (negb (truthy (json_get status (ordinalOf i ++ "MentorCallCompletedAt"))));
      simpl in Hin; [|contradiction].
    destruct Hin as [<-|[]]. exact Hs.
Qed.

(** The page and the component read the same completion fields. *)
Lemma calls_hasCompletedAt (status : StatusJson) (c : Call) :
  In c (calls (coreStatus status)) ->
  hasCompletedAt status (number c) = isCompleted c.
Proof.
  intro Hin. simpl in Hin.
  repeat (destruct Hin as [<-|Hin]; [reflexivity|]). contradiction.
Qed.

Section Page.

(** [calls.sort(...)]: whatever the comparison answers, the result holds
    the same entries. *)
Variable sortByScheduledAt : list ScheduledCall -> list ScheduledCall.
Hypothesis sort_permutes :
  forall l : list ScheduledCall, Permutation l (sortByScheduledAt l).

Lemma page_includes (status : StatusJson) (n : Z) :
  includes (map callNumber (sortByScheduledAt (collectScheduled status))) n = true
  <-> 1 <= n <= 5 /\ hasScheduledAt status n = true /\ hasCompletedAt status n = false.
Proof.
  rewrite includes_In.
  assert (Hperm : Permutation (map callNumber (collectScheduled status))
                              (map callNumber (sortByScheduledAt (collectScheduled status)))).
  { apply Permutation_map. apply sort_permutes. }
  assert (Hcol : In n (map callNumber (collectScheduled status))
                 <-> 1 <= n <= 5 /\ hasScheduledAt status n = true
                     /\ hasCompletedAt status n = false).
  { unfold collectScheduled. rewrite collect_numbers. simpl. split.
    - intros (Hin & H1 & H2). repeat split; auto; lia.
    - intros (Hr & H1 & H2). repeat split; auto. lia. }
  rewrite <- Hcol. split.
  - apply Permutation_in. apply Permutation_sym. exact Hperm.
  - apply Permutation_in. exact Hperm.
Qed.

(** X11: The page and the component on one snapshot: a stage is among the
    scheduled numbers the component receives exactly when it has a
    scheduled time and is not completed, so the returned stage is never
    flagged both scheduled and booked. *)
Theorem page_scheduled_never_booked (status : StatusJson) :
  exists d,
    computeNextCall (Some (coreStatus status))
                    (map callNumber (sortByScheduledAt (collectScheduled status)))
    = Return d
    /\ (isScheduled d = true -> isBooked d = false)
    /\ (forall c, In c (calls (coreStatus status)) ->
                  includes (map callNumber (sortByScheduledAt (collectScheduled status)))
                           (number c)
                  = hasScheduledAt status (number c) && negb (isCompleted c)).
Proof.
  assert (Hinc : forall c, In c (calls (coreStatus status)) ->
                  includes (map callNumber (sortByScheduledAt (collectScheduled status)))
                           (number c)
                  = hasScheduledAt status (number c) && negb (isCompleted c)).
  { intros c Hin. apply eq_true_iff_eq.
    rewrite page_includes, (calls_hasCompletedAt _ _ Hin).
    pose proof (calls_number_range _ _ Hin) as Hr.
    rewrite andb_true_iff, negb_true_iff. tauto. }
  destruct (selectNextCall_origin (coreStatus status)
              (map callNumber (sortByScheduledAt (collectScheduled status))))
    as (nc & c & Hsel & Hin & Ho).
  pose proof (Origin_fields _ _ _ _ Ho) as (Hn & Hc & _).
  eexists. split; [apply (computeNextCall_unfold _ _ _ Hsel)|].
  split; [|exact Hinc].
  cbn [isScheduled isBooked computeIsBooked].
  rewrite (numberOrZero_stage _ _ _ Hin Hn), (Hinc c Hin), Hc.
  fold (isCompleted c).
  intro H. apply andb_true_iff in H. destruct H as [_ H].
  apply negb_true_iff in H. exact H.
Qed.

End Page.

Lemma page_scheduled_never_booked_witness :
  exists d,
    computeNextCall (Some (coreStatus jsonAllScheduled))
                    (map callNumber (collectScheduled jsonAllScheduled)) = Return d
    /\ isScheduled d = true /\ isBooked d = false.
Proof.
  destruct (page_scheduled_never_booked (fun l => l) (fun l => Permutation_refl l)
                                        jsonAllScheduled) as (d & Hd & Hsb & _).
  exists d. split; [exact Hd|].
  assert (Hs : isScheduled d = true).
  { vm_compute in Hd. inversion Hd. reflexivity. }
  split; [exact Hs | exact (Hsb Hs)].
Defined.

(** ** Avatar colour *)

Lemma toInt32_range (z : Z) : - 2 ^ 31 <= toInt32 z < 2 ^ 31.
Proof.
  unfold toInt32.
  pose proof (Z.mod_pos_bound z (2 ^ 32) ltac:(reflexivity)) as Hm.
  change (2 ^ 32) with 4294967296 in *. change (2 ^ 31) with 2147483648 in *.
  destruct (z mod 4294967296 <? 2147483648) eqn:E.
  - apply Z.ltb_lt in E. lia.
  - apply Z.ltb_ge in E. lia.
Qed.

Lemma hashStep_bound (hash charCode : Z) :
  0 <= charCode <= 65535 ->
  Z.abs (hashStep hash charCode) <= Z.abs hash + 2147549183.
Proof.
  intro Hc. unfold hashStep, shiftLeft5.
  pose proof (toInt32_range (Z.shiftl (toInt32 hash) 5)) as Hr.
  change (2 ^ 31) with 2147483648 in Hr. lia.
Qed.

Lemma fold_hashStep_bound (name : list Z) (hash : Z) :
  codeUnits name ->
  Z.abs (fold_left hashStep name hash)
  <= Z.abs hash + Z.of_nat (List.length name) * 2147549183.
Proof.
  revert hash. induction name as [|c rest IH]; intros hash Hcu.
  - simpl. lia.
  - inversion Hcu as [|? ? Hc Hrest]; subst.
    cbn [fold_left]. specialize (IH (hashStep hash c) Hrest).
    pose proof (hashStep_bound hash c Hc) as Hs.
    change (List.length (c :: rest)) with (S (List.length rest)).
    rewrite Nat2Z.inj_succ. lia.
Qed.

(** X12: [getColorFromName] on a name of fewer than [2 ^ 21] UTF-16 code units:
    the hash stays below [2 ^ 53] in absolute value (so the arithmetic on
    doubles is exact) and the result is always one of the eight colour
    classes, never [undefined]; the empty name gets the first one. *)
Theorem getColorFromName_defined (name : list Z) :
  codeUnits name ->
  Z.of_nat (List.length name) < 2 ^ 21 ->
  Z.abs (nameHash name) < 2 ^ 53
  /\ (exists color, getColorFromName name = Some color /\ In color colors)
  /\ getColorFromName [] = Some "bg-blue-500".
Proof.
  intros Hcu Hlen.
  change (2 ^ 21) with 2097152 in Hlen. change (2 ^ 53) with 9007199254740992.
  split; [|split; [|reflexivity]].
  - pose proof (fold_hashStep_bound name 0 Hcu) as Hb.
    unfold nameHash. simpl Z.abs in Hb. lia.
  - unfold getColorFromName.
    pose proof (Z.rem_bound_pos (Z.abs (nameHash name)) (Z.of_nat (List.length colors))
                                (Z.abs_nonneg _) ltac:(reflexivity)) as Hr.
    change (Z.of_nat (List.length colors)) with 8 in *.
    destruct (nth_error colors (Z.to_nat (Z.rem (Z.abs (nameHash name)) 8)))
      as [color|] eqn:Hnth.
    + exists color. split; [reflexivity|]. apply (nth_error_In _ _ Hnth).
    + exfalso. apply nth_error_None in Hnth. simpl in Hnth. lia.
Qed.

Lemma getColorFromName_defined_witness :
  exists color, getColorFromName [65; 100; 97] = Some color /\ In color colors.
Proof.
  refine (proj1 (proj2 (getColorFromName_defined [65; 100; 97] _ _))).
  - repeat constructor; discriminate.
  - reflexivity.
Defined.

(** ** Bounds of the percentage *)

Lemma percentage_table_bounds :
  forallb (fun n =>
    (0 <=? toNumber n / 7 * 100)%float
    && (toNumber n / 7 * 100 <=? 100)%float
    && Bool.eqb (toNumber n / 7 * 100 =? 100)%float (n =? 7)%nat
    && Bool.eqb (toNumber n / 7 * 100 =? 0)%float (n =? 0)%nat
    && forallb (fun m =>
         implb (n <? m)%nat
               ((toNumber n / 7 * 100) <? (toNumber m / 7 * 100))%float)
         (seq 0 8)) (seq 0 8) = true.
Proof. vm_compute. reflexivity. Qed.

(** X13: The percentage lies between 0 and 100, is 100 exactly when all seven
    flags of [MILESTONES] are true and 0 exactly when none is, and a
    snapshot with more true flags has a strictly larger percentage. *)
Theorem progress_bounds_and_strictness
        (status : UserStatus) (scheduledCallNumbers : list Z) :
  exists d,
    computeNextCall (Some status) scheduledCallNumbers = Return d
    /\ (0 <=? progressPercentage d)%float = true
    /\ (progressPercentage d <=? 100)%float = true
    /\ ((progressPercentage d =? 100)%float = true <-> milestonesTrueCount status = 7%nat)
    /\ ((progressPercentage d =? 0)%float = true <-> milestonesTrueCount status = 0%nat)
    /\ forall (status' : UserStatus) (scheduled' : list Z),
        (milestonesTrueCount status < milestonesTrueCount status')%nat ->
        exists d', computeNextCall (Some status') scheduled' = Return d'
                   /\ (progressPercentage d <? progressPercentage d')%float = true.
Proof.
  destruct (computeNextCall_returns status scheduledCallNumbers) as (d & Hd & Hp).
  exists d. split; [exact Hd|].
  rewrite Hp, computeProgress_count.
  pose proof percentage_table_bounds as T.
  rewrite forallb_forall in T.
  pose proof (milestonesTrueCount_le_7 status) as Hle.
  assert (Hn : In (milestonesTrueCount status) (seq 0 8)) by (apply in_seq; lia).
  specialize (T _ Hn).
  apply andb_true_iff in T. destruct T as [T Tstrict].
  apply andb_true_iff in T. destruct T as [T Tzero].
  apply andb_true_iff in T. destruct T as [T Tfull].
  apply andb_true_iff in T. destruct T as [Tlow Thigh].
  split; [exact Tlow|]. split; [exact Thigh|].
  split; [|split].
  - apply Bool.eqb_prop in Tfull. rewrite Tfull. apply Nat.eqb_eq.
  - apply Bool.eqb_prop in Tzero. rewrite Tzero. apply Nat.eqb_eq.
  - intros status' scheduled' Hlt.
    destruct (computeNextCall_returns status' scheduled') as (d' & Hd' & Hp').
    exists d'. split; [exact Hd'|].
    rewrite Hp', computeProgress_count.
    rewrite forallb_forall in Tstrict.
    pose proof (milestonesTrueCount_le_7 status') as Hle'.
    assert (Hm : In (milestonesTrueCount status') (seq 0 8)) by (apply in_seq; lia).
    specialize (Tstrict _ Hm). apply Nat.ltb_lt in Hlt. rewrite Hlt in Tstrict.
    exact Tstrict.
Qed.

Lemma progress_bounds_and_strictness_witness :
  exists d d',
    computeNextCall (Some statusFresh) [] = Return d
    /\ computeNextCall (Some statusReadyFirst) [] = Return d'
    /\ (progressPercentage d <? progressPercentage d')%float = true.
Proof.
  destruct (progress_bounds_and_strictness statusFresh [])
    as (d & Hd & _ & _ & _ & _ & Hstrict).
  assert (Hlt : (milestonesTrueCount statusFresh < milestonesTrueCount statusReadyFirst)%nat).
  { vm_compute. repeat constructor. }
  destruct (Hstrict statusReadyFirst [] Hlt) as (d' & Hd' & Hlt').
  exists d, d'. auto.
Defined.

(** ** Order of the scheduled numbers *)

Lemma scan_includes_ext (status : UserStatus) (l l' : list Z) (cs : list Call) :
  (forall n, includes l n = includes l' n) ->
  scan status l cs = scan status l' cs.
Proof.
  intro Hext. induction cs as [|call rest IH]; simpl; [reflexivity|].
  rewrite (Hext (number call)), IH. reflexivity.
Qed.

Lemma findOpen_includes_ext (l l' : list Z) (cs : list Call) :
  (forall n, includes l n = includes l' n) ->
  findOpen l cs = findOpen l' cs.
Proof.
  intro Hext. unfold findOpen.
  induction cs as [|c rest IH]; simpl; [reflexivity|].
  rewrite (Hext (number c)), IH. reflexivity.
Qed.

(** X14: Only membership in the scheduled numbers matters: two lists with the
    same elements (in any order, with any repetitions) give the same
    derivation, so the page's sort does not influence the component. *)
Theorem computeNextCall_scheduled_order
        (status : option UserStatus) (l l' : list Z) :
  (forall n : Z, In n l <-> In n l') ->
  computeNextCall status l = computeNextCall status l'.
Proof.
  intro Hsame.
  assert (Hext : forall n, includes l n = includes l' n).
  { intro n. apply eq_true_iff_eq. rewrite !includes_In. apply Hsame. }
  destruct status as [st|]; [|reflexivity].
  unfold computeNextCall, selectNextCall.
  rewrite (scan_includes_ext st l l' (calls st) Hext).
  rewrite (findOpen_includes_ext l l' (calls st) Hext).
  rewrite (Hext (numberOrZero _)). reflexivity.
Qed.

Lemma computeNextCall_scheduled_order_witness :
  computeNextCall (Some statusFresh) [1; 3] = computeNextCall (Some statusFresh) [3; 1; 3].
Proof.
  apply computeNextCall_scheduled_order.
  intro n. simpl. tauto.
Defined.

(** ** The two milestone tables *)

(** X15: The required lists of the five stages, one after the other, are the
    [MILESTONES] table; hence the percentage is 100 exactly when every
    stage has all its required milestones done. *)
Theorem full_progress_iff_all_requirements
        (status : UserStatus) (scheduledCallNumbers : list Z) :
  List.concat (map required (calls status)) = MILESTONES
  /\ exists d,
      computeNextCall (Some status) scheduledCallNumbers = Return d
      /\ ((progressPercentage d =? 100)%float = true
          <-> forall c, In c (calls status) -> allRequiredDone status c = true).
Proof.
  split; [reflexivity|].
  destruct (computeNextCall_returns status scheduledCallNumbers) as (d & Hd & Hp).
  exists d. split; [exact Hd|].
  rewrite Hp, computeProgress_count.
  pose proof percentage_table_bounds as T.
  rewrite forallb_forall in T.
  pose proof (milestonesTrueCount_le_7 status) as Hle.
  assert (Hn : In (milestonesTrueCount status) (seq 0 8)) by (apply in_seq; lia).
  specialize (T _ Hn).
  apply andb_true_iff in T. destruct T as [T _].
  apply andb_true_iff in T. destruct T as [T _].
  apply andb_true_iff in T. destruct T as [_ Tfull].
  apply Bool.eqb_prop in Tfull. rewrite Tfull, Nat.eqb_eq.
  rewrite <- forallb_forall.
  unfold allRequiredDone, milestonesTrueCount, calls, status_get. cbn.
  destruct (orientation status), (resumeRebuilding status), (resumeConfirmed status),
    (portfolioBuildingAndConfirmed status), (techDistributionAndExtension status),
    (cheatSheetBuiltOut status), (hasAppliedEnoughJobs status);
    cbn; split; intro H; first [reflexivity | discriminate H].
Qed.

Lemma full_progress_iff_all_requirements_witness :
  exists d,
    computeNextCall (Some statusAllDone) [] = Return d
    /\ (progressPercentage d =? 100)%float = true.
Proof.
  destruct (full_progress_iff_all_requirements statusAllDone []) as (_ & d & Hd & Hiff).
  exists d. split; [exact Hd|].
  apply Hiff. intros c Hin. simpl in Hin.
  repeat (destruct Hin as [<-|Hin]; [reflexivity|]). contradiction.
Defined.

Lemma checklist_empty_iff_witness :
  exists d,
    computeNextCall (Some statusReadyFirst) [] = Return d
    /\ currentMilestones d = [].
Proof.
  destruct (checklist_empty_iff statusReadyFirst []) as (d & nc & Hd & _ & _ & Hiff).
  exists d. split; [exact Hd|].
  apply Hiff. left.
  vm_compute in Hd. inversion Hd. reflexivity.
Defined.

Lemma reload_iff_booking_accepted_witness :
  exists d,
    computeNextCall (Some statusReadyFirst) [] = Return d
    /\ In LoadStatus
          (handleBookCall (nextMentorCall d) (isEligible d) false worldAccepting).
Proof.
  assert (H : exists d nc, computeNextCall (Some statusReadyFirst) [] = Return d
                           /\ nextMentorCall d = Some nc /\ isEligible d = true
                           /\ nc_number nc = 1).
  { eexists. eexists. split; [vm_compute; reflexivity|]. repeat split. }
  destruct H as (d & nc & Hd & Hnc & He & Hn).
  exists d. split; [exact Hd|].
  apply (proj2 (reload_iff_booking_accepted d false worldAccepting)).
  exists nc, "id-token". repeat split; auto; try discriminate.
  rewrite Hnc, He. simpl. right; right; left; reflexivity.
Defined.

Lemma collectScheduled_numbers_witness :
  In 1 (map callNumber (collectScheduled jsonAllScheduled)).
Proof.
  apply (proj1 (collectScheduled_numbers jsonAllScheduled)).
  repeat split; try reflexivity; lia.
Defined.
